(** * Capacity allocation of the engineer-management backend

    A shallow embedding of [src/models/assignment.model.js] (the Mongoose
    schema of an assignment, its save-time validators and the static method
    [checkAvailability]) and of the create and update handlers of
    [src/routes/assignment.routes.js], with the properties of the capacity
    engine stated over them.

    Modelling conventions.
    - A JavaScript [Date] is its time value: milliseconds since the epoch,
      in UTC, as a [Z].  [current.setDate(current.getDate() + 1)] moves a
      date one local calendar day ahead.  [checkAvailability] is the method
      on a server whose local time is UTC, where this adds [MS_PER_DAY];
      [checkAvailabilityIn] takes the step of the server's time zone as a
      parameter, and a property that needs days of 24 hours says so in a
      hypothesis ([utcServer]).
    - [current.toISOString().split('T')[0]] is the UTC calendar day of a
      date, written yyyy-mm-dd.  The day is represented by its number
      (days since the epoch), of which the ISO string is an injective
      rendering.
    - [allocationPercentage] is a Mongoose [Number]; the routes accept
      integers, and it is an integer [Z] here.
    - A collection is the list of its documents in natural (insertion)
      order; [find] filters it.  The code fixes no order for the result of
      a query without [sort]; a property that depends on that order is
      stated for every order ([queryResult]).
    - A JavaScript [Map] keeps its keys in insertion order: it is an
      association list, and [set] on a present key updates in place. *)

From Stdlib Require Import String Ascii ZArith List Bool Lia Permutation.
Import ListNotations.
Open Scope Z_scope.

(** ** Dates *)

Module JsDate.

(** The time value of a [Date] object. *)
Abbreviation Date := Z (only parsing).

Definition MS_PER_DAY : Z := 86400000.

(** [d.toISOString().split('T')[0]], as a day number. *)
Definition dateKey (d : Date) : Z := d / MS_PER_DAY.

(** [d.setDate(d.getDate() + 1)]. *)
Definition addDay (d : Date) : Date := d + MS_PER_DAY.

(** [new Date("yyyy-mm-dd")]: midnight UTC of day [k]. *)
Definition ofDay (k : Z) : Date := k * MS_PER_DAY.

(** A date with no time component. *)
Definition isCalendarDate (d : Date) : Prop := d mod MS_PER_DAY = 0.

End JsDate.
Import JsDate.

(** ** Documents and collections *)

Inductive Role := engineer | manager.

Definition Role_eqb (r1 r2 : Role) : bool :=
  match r1, r2 with
  | engineer, engineer | manager, manager => true
  | _, _ => false
  end.

(** [src/models/user.model.js]: the fields the capacity engine could read. *)
Record User := mkUser {
  userId : Z;
  userRole : Role;
  maxCapacity : Z
}.

(** [src/models/project.model.js]. *)
Record Project := mkProject {
  projectKey : Z;
  managerId : Z
}.

(** [src/models/assignment.model.js], [assignmentSchema]. *)
Record Assignment := mkAssignment {
  _id : Z;
  engineerId : Z;
  projectId : Z;
  allocationPercentage : Z;
  startDate : Date;
  endDate : Date;
  role : string
}.

Record Db := mkDb {
  users : list User;
  projects : list Project;
  assignments : list Assignment;
  nextId : Z
}.

(** ** The timeline map of [checkAvailability] *)

Definition Timeline := list (Z * Z).

Fixpoint map_get (m : Timeline) (k : Z) : option Z :=
  match m with
  | [] => None
  | (k', v) :: rest => if k =? k' then Some v else map_get rest k
  end.

Fixpoint map_set (m : Timeline) (k v : Z) : Timeline :=
  match m with
  | [] => [(k, v)]
  | (k', v') :: rest =>
      if k =? k' then (k', v) :: rest else (k', v') :: map_set rest k v
  end.

(** [x || 0] on the result of [Map.get]: [undefined] and [0] are falsy. *)
Definition orZero (x : option Z) : Z :=
  match x with
  | Some v => if v =? 0 then 0 else v
  | None => 0
  end.

Definition map_keys (m : Timeline) : list Z := map fst m.
Definition map_values (m : Timeline) : list Z := map snd m.

(** ** [checkAvailability] *)

Record Verdict := mkVerdict {
  isAvailable : bool;
  allocations : Timeline
}.

(** [this.find({ engineerId, startDate: { $lte: endDate },
                 endDate: { $gte: startDate } })]. *)
Definition overlapsWindow (eng : Z) (windowStart windowEnd : Date)
    (a : Assignment) : bool :=
  (engineerId a =? eng) && (startDate a <=? windowEnd)
  && (endDate a >=? windowStart).

Definition findOverlapping (db : Db) (eng : Z) (windowStart windowEnd : Date)
    : list Assignment :=
  filter (overlapsWindow eng windowStart windowEnd) (assignments db).

(** The [while (current <= assignment.endDate)] loop.  [None] is an
    exhausted iteration budget. *)
Fixpoint dayLoop (fuel : nat) (pct : Z) (last : Date) (current : Date)
    (timelineMap : Timeline) : option Timeline :=
  match fuel with
  | O => None
  | S fuel' =>
      if current <=? last then
        let key := dateKey current in
        dayLoop fuel' pct last (addDay current)
          (map_set timelineMap key (orZero (map_get timelineMap key) + pct))
      else Some timelineMap
  end.

(** An iteration budget that the loop of one assignment never uses up. *)
Definition loopBudget (a : Assignment) : nat :=
  S (Z.to_nat ((endDate a - startDate a) / MS_PER_DAY + 1)).

(** [assignments.forEach(assignment => { ... })]. *)
Fixpoint forEachAssignment (l : list Assignment) (timelineMap : Timeline)
    : option Timeline :=
  match l with
  | [] => Some timelineMap
  | a :: rest =>
      match dayLoop (loopBudget a) (allocationPercentage a) (endDate a)
              (startDate a) timelineMap with
      | Some m' => forEachAssignment rest m'
      | None => None
      end
  end.

Definition CAPACITY : Z := 100.

(** The [return] statement: the verdict built from the finished timeline.
    [Object.fromEntries] keeps the entries in the order of the map (the
    keys are date strings, never array indices). *)
Definition verdictOf (timelineMap : Timeline) : Verdict :=
  {| isAvailable := forallb (fun value => value <? CAPACITY)
                      (map_values timelineMap);
     allocations := timelineMap |}.

Definition checkAvailability (db : Db) (eng : Z) (windowStart windowEnd : Date)
    : option Verdict :=
  match forEachAssignment (findOverlapping db eng windowStart windowEnd) [] with
  | Some timelineMap => Some (verdictOf timelineMap)
  | None => None
  end.

(** ** Schema validation and [save] *)

Definition isSpace (c : ascii) : bool :=
  let n := nat_of_ascii c in
  (Nat.eqb n 32 || (Nat.leb 9 n && Nat.leb n 13))%bool.

Fixpoint dropSpaces (l : list ascii) : list ascii :=
  match l with
  | [] => []
  | c :: rest => if isSpace c then dropSpaces rest else l
  end.

(** [String.prototype.trim] on ASCII text (the [trim: true] setter). *)
Definition trim (s : string) : string :=
  string_of_list_ascii
    (rev (dropSpaces (rev (dropSpaces (list_ascii_of_string s))))).

Definition notEmpty (s : string) : bool :=
  match s with EmptyString => false | _ => true end.

Definition findUserById (db : Db) (i : Z) : option User :=
  find (fun u => userId u =? i) (users db).

(** [engineerId.validate]: [engineer && engineer.role === 'engineer']. *)
Definition engineerIdValidator (db : Db) (value : Z) : bool :=
  match findUserById db value with
  | Some u => Role_eqb (userRole u) engineer
  | None => false
  end.

(** The query of the [allocationPercentage] validator:
    [{ engineerId: this.engineerId, _id: { $ne: this._id },
       startDate: { $lte: this.endDate }, endDate: { $gte: this.startDate } }]. *)
Definition competes (this a : Assignment) : bool :=
  (engineerId a =? engineerId this) && negb (_id a =? _id this)
  && (startDate a <=? endDate this) && (endDate a >=? startDate this).

Definition currentAssignments (db : Db) (this : Assignment) : list Assignment :=
  filter (competes this) (assignments db).

Definition totalAllocation (db : Db) (this : Assignment) (value : Z) : Z :=
  fold_left (fun sum assignment => sum + allocationPercentage assignment)
    (currentAssignments db this) 0 + value.

(** [allocationPercentage.validate]. *)
Definition allocationValidator (db : Db) (isNew isModified : bool)
    (this : Assignment) (value : Z) : bool :=
  if isNew || isModified then totalAllocation db this value <=? 100
  else true.

(** [endDate.validate]: [value > this.startDate]. *)
Definition endDateValidator (this : Assignment) (value : Date) : bool :=
  value >? startDate this.

(** Everything [save] validates: [required], [min], [max] and the three
    custom validators. *)
Definition validateDoc (db : Db) (isNew isModified : bool) (this : Assignment)
    : bool :=
  engineerIdValidator db (engineerId this)
  && (0 <=? allocationPercentage this) && (allocationPercentage this <=? 100)
  && allocationValidator db isNew isModified this (allocationPercentage this)
  && endDateValidator this (endDate this)
  && notEmpty (role this).

(** [updateOne({ _id })]: the first document with that id is replaced. *)
Fixpoint replaceById (l : list Assignment) (doc : Assignment) : list Assignment :=
  match l with
  | [] => []
  | a :: rest =>
      if _id a =? _id doc then doc :: rest else a :: replaceById rest doc
  end.

(** [assignment.save()]: [None] is a rejected save (a thrown
    [ValidationError]). *)
Definition save (db : Db) (isNew isModified : bool) (doc : Assignment)
    : option Db :=
  if validateDoc db isNew isModified doc then
    Some (if isNew
          then {| users := users db; projects := projects db;
                  assignments := assignments db ++ [doc];
                  nextId := nextId db + 1 |}
          else {| users := users db; projects := projects db;
                  assignments := replaceById (assignments db) doc;
                  nextId := nextId db |})
  else None.

(** ** The handlers of [assignment.routes.js] *)

Inductive Body :=
| Errors
| Message (message : string)
| Conflict (message : string) (allocations : Timeline)
| Document (assignment : Assignment).

Record Response := mkResponse { status : Z; body : Body }.

(** A request body that passed JSON parsing; the id and date formats
    ([isMongoId], [isISO8601]) are carried by the types. *)
Record CreateBody := mkCreateBody {
  cb_engineerId : Z;
  cb_projectId : Z;
  cb_allocationPercentage : Z;
  cb_startDate : Date;
  cb_endDate : Date;
  cb_role : string
}.

(** [validateAssignment]. *)
Definition validateAssignment (b : CreateBody) : bool :=
  (0 <=? cb_allocationPercentage b) && (cb_allocationPercentage b <=? 100)
  && notEmpty (trim (cb_role b)).

(** [new Assignment(req.body)], with a fresh [_id]. *)
Definition newAssignment (db : Db) (b : CreateBody) : Assignment :=
  {| _id := nextId db;
     engineerId := cb_engineerId b;
     projectId := cb_projectId b;
     allocationPercentage := cb_allocationPercentage b;
     startDate := cb_startDate b;
     endDate := cb_endDate b;
     role := trim (cb_role b) |}.

Definition findProject (db : Db) (p : Z) : option Project :=
  find (fun x => projectKey x =? p) (projects db).

Definition findManagedProject (db : Db) (p user : Z) : option Project :=
  find (fun x => (projectKey x =? p) && (managerId x =? user)) (projects db).

Definition findEngineer (db : Db) (i : Z) : option User :=
  find (fun u => (userId u =? i) && Role_eqb (userRole u) engineer) (users db).

(** [router.post('/', ...)], after [auth] and [authorize(['manager'])]. *)
Definition createAssignment (db : Db) (reqUser : Z) (b : CreateBody)
    : Response * Db :=
  if negb (validateAssignment b) then (mkResponse 400 Errors, db) else
  match findManagedProject db (cb_projectId b) reqUser with
  | None => (mkResponse 404 (Message "Project not found"), db)
  | Some _ =>
  match findEngineer db (cb_engineerId b) with
  | None => (mkResponse 404 (Message "Engineer not found"), db)
  | Some _ =>
  match checkAvailability db (cb_engineerId b) (cb_startDate b) (cb_endDate b) with
  | None => (mkResponse 500 (Message "Error creating assignment"), db)
  | Some availability =>
      if negb (isAvailable availability) then
        (mkResponse 400
           (Conflict "Engineer does not have sufficient capacity for this assignment"
              (allocations availability)), db)
      else
        let assignment := newAssignment db b in
        match save db true true assignment with
        | None => (mkResponse 500 (Message "Error creating assignment"), db)
        | Some db' => (mkResponse 201 (Document assignment), db')
        end
  end end end.

(** The body of a PATCH: the four allowed keys, each present or not, and
    whether any other key is present. *)
Record PatchBody := mkPatchBody {
  pb_allocationPercentage : option Z;
  pb_startDate : option Date;
  pb_endDate : option Date;
  pb_role : option string;
  pb_otherKeys : bool
}.

Definition findById (db : Db) (i : Z) : option Assignment :=
  find (fun a => _id a =? i) (assignments db).

(** [if (req.body.allocationPercentage)]: absent and [0] are falsy. *)
Definition truthy (x : option Z) : bool :=
  match x with Some v => negb (v =? 0) | None => false end.

Definition orElse {A : Type} (x : option A) (d : A) : A :=
  match x with Some v => v | None => d end.

(** [updates.forEach(update => assignment[update] = req.body[update])]. *)
Definition applyUpdates (a : Assignment) (b : PatchBody) : Assignment :=
  {| _id := _id a;
     engineerId := engineerId a;
     projectId := projectId a;
     allocationPercentage :=
       orElse (pb_allocationPercentage b) (allocationPercentage a);
     startDate := orElse (pb_startDate b) (startDate a);
     endDate := orElse (pb_endDate b) (endDate a);
     role := match pb_role b with Some r => trim r | None => role a end |}.

(** [this.isModified('allocationPercentage')]: Mongoose marks a path
    modified when the value set differs from the loaded one. *)
Definition isModifiedPercentage (old new : Assignment) : bool :=
  negb (allocationPercentage new =? allocationPercentage old).

(** [router.patch('/:id', ...)], after [auth] and [authorize(['manager'])]. *)
Definition updateAssignment (db : Db) (reqUser : Z) (id : Z) (b : PatchBody)
    : Response * Db :=
  if pb_otherKeys b then (mkResponse 400 (Message "Invalid updates"), db) else
  match findById db id with
  | None => (mkResponse 404 (Message "Assignment not found"), db)
  | Some assignment =>
  match findProject db (projectId assignment) with
  | None => (mkResponse 400 (Message "Error updating assignment"), db)
  | Some project =>
  if negb (managerId project =? reqUser) then
    (mkResponse 403 (Message "Not authorized to update this assignment"), db)
  else
  let check :=
    if truthy (pb_allocationPercentage b) then
      checkAvailability db (engineerId assignment) (startDate assignment)
        (endDate assignment)
    else Some {| isAvailable := true; allocations := [] |} in
  match check with
  | None => (mkResponse 400 (Message "Error updating assignment"), db)
  | Some availability =>
      if negb (isAvailable availability) then
        (mkResponse 400
           (Conflict "Engineer does not have sufficient capacity for this update"
              (allocations availability)), db)
      else
        let updated := applyUpdates assignment b in
        match save db false (isModifiedPercentage assignment updated) updated with
        | None => (mkResponse 400 (Message "Error updating assignment"), db)
        | Some db' => (mkResponse 200 (Document updated), db')
        end
  end end end.

(** ** [checkAvailability] over mutable [Date] objects

    In the source the dates of a document are objects, and [setDate]
    mutates its receiver.  Here the heap of [Date] objects is explicit: a
    document found by the query holds two references, [new Date(d)]
    allocates, and [setDate] writes through a reference. *)

Module Mutable.

Definition Ref := nat.
Definition Heap := list Z.

Record Doc := mkDoc {
  doc_id : Z;
  doc_engineerId : Z;
  doc_projectId : Z;
  doc_allocationPercentage : Z;
  doc_startDate : Ref;
  doc_endDate : Ref;
  doc_role : string
}.

Definition getTime (h : Heap) (r : Ref) : option Z := nth_error h r.

(** [new Date(value)]. *)
Definition newDate (h : Heap) (value : Z) : Ref * Heap :=
  (length h, h ++ [value]).

Fixpoint setTime (h : Heap) (r : Ref) (value : Z) : Heap :=
  match h, r with
  | [], _ => []
  | _ :: rest, O => value :: rest
  | x :: rest, S r' => x :: setTime rest r' value
  end.

(** The loop of one assignment: [current] is a reference, advanced in
    place.  [None] is a dangling reference or an exhausted budget. *)
Fixpoint dayLoop (fuel : nat) (pct : Z) (last current : Ref) (h : Heap)
    (timelineMap : Timeline) : option (Heap * Timeline) :=
  match fuel with
  | O => None
  | S fuel' =>
      match getTime h current, getTime h last with
      | Some c, Some e =>
          if c <=? e then
            let key := dateKey c in
            let m' := map_set timelineMap key
                        (orZero (map_get timelineMap key) + pct) in
            dayLoop fuel' pct last current (setTime h current (addDay c)) m'
          else Some (h, timelineMap)
      | _, _ => None
      end
  end.

Definition budget (h : Heap) (d : Doc) : nat :=
  match getTime h (doc_startDate d), getTime h (doc_endDate d) with
  | Some s, Some e => S (Z.to_nat ((e - s) / MS_PER_DAY + 1))
  | _, _ => O
  end.

Fixpoint forEachAssignment (l : list Doc) (h : Heap) (timelineMap : Timeline)
    : option (Heap * Timeline) :=
  match l with
  | [] => Some (h, timelineMap)
  | d :: rest =>
      match getTime h (doc_startDate d) with
      | None => None
      | Some s =>
          let (current, h1) := newDate h s in
          match dayLoop (budget h d) (doc_allocationPercentage d)
                  (doc_endDate d) current h1 timelineMap with
          | Some (h2, m') => forEachAssignment rest h2 m'
          | None => None
          end
      end
  end.

(** Lines 85 to 101 of the model, on the documents the query returned. *)
Definition evaluate (h : Heap) (found : list Doc) : option (Verdict * Heap) :=
  match forEachAssignment found h [] with
  | Some (h', timelineMap) => Some (verdictOf timelineMap, h')
  | None => None
  end.

(** The document as a value: its dates read from the heap. *)
Definition snapshot (h : Heap) (d : Doc) : option Assignment :=
  match getTime h (doc_startDate d), getTime h (doc_endDate d) with
  | Some s, Some e =>
      Some {| _id := doc_id d; engineerId := doc_engineerId d;
              projectId := doc_projectId d;
              allocationPercentage := doc_allocationPercentage d;
              startDate := s; endDate := e; role := doc_role d |}
  | _, _ => None
  end.

Definition wellFormed (h : Heap) (d : Doc) : Prop :=
  (doc_startDate d < length h)%nat /\ (doc_endDate d < length h)%nat.

(** The values of the documents, in order. *)
Fixpoint snapshots (h : Heap) (l : list Doc) : list Assignment :=
  match l with
  | [] => []
  | d :: rest =>
      match snapshot h d with
      | Some a => a :: snapshots h rest
      | None => snapshots h rest
      end
  end.

(** The documents the query hands over: each found assignment gets
    fresh [Date] objects. *)
Fixpoint hydrate (h : Heap) (l : list Assignment) : Heap * list Doc :=
  match l with
  | [] => (h, [])
  | a :: rest =>
      let (rs, h1) := newDate h (startDate a) in
      let (re, h2) := newDate h1 (endDate a) in
      let (h3, docs) := hydrate h2 rest in
      (h3, {| doc_id := _id a; doc_engineerId := engineerId a;
              doc_projectId := projectId a;
              doc_allocationPercentage := allocationPercentage a;
              doc_startDate := rs; doc_endDate := re;
              doc_role := role a |} :: docs)
  end.

Definition checkAvailability (db : Db) (eng : Z) (windowStart windowEnd : Date)
    (h : Heap) : option (Verdict * Heap) :=
  let (h1, found) := hydrate h (findOverlapping db eng windowStart windowEnd) in
  evaluate h1 found.

End Mutable.

(** ** Days, totals and the capacity invariant *)

(** Calendar day [k] lies in [[startDate, endDate]] of [a]. *)
Definition coversDay (a : Assignment) (k : Z) : bool :=
  (dateKey (startDate a) <=? k) && (k <=? dateKey (endDate a)).

(** Instant [t] lies in [[startDate, endDate]] of [a]. *)
Definition coversInstant (a : Assignment) (t : Date) : bool :=
  (startDate a <=? t) && (t <=? endDate a).

(** How many times the loop of [checkAvailability] runs for [a]. *)
Definition dayCount (a : Assignment) : Z :=
  if startDate a <=? endDate a
  then (endDate a - startDate a) / MS_PER_DAY + 1
  else 0.

Fixpoint daysFrom (k : Z) (n : nat) : list Z :=
  match n with
  | O => []
  | S n' => k :: daysFrom (k + 1) n'
  end.

(** The day keys that loop writes, in order. *)
Definition loopDays (a : Assignment) : list Z :=
  daysFrom (dateKey (startDate a)) (Z.to_nat (dayCount a)).

Definition visitsDay (a : Assignment) (k : Z) : bool :=
  (dateKey (startDate a) <=? k) && (k <? dateKey (startDate a) + dayCount a).

(** One turn of the loop body on day [k]. *)
Definition bump (pct : Z) (m : Timeline) (k : Z) : Timeline :=
  map_set m k (orZero (map_get m k) + pct).

(** The value the timeline holds for a day, zero when absent. *)
Definition total (m : Timeline) (k : Z) : Z := orZero (map_get m k).

Fixpoint occurrences (k : Z) (ks : list Z) : Z :=
  match ks with
  | [] => 0
  | k' :: rest => (if k =? k' then 1 else 0) + occurrences k rest
  end.

(** The timeline after the loops of a list of assignments. *)
Definition timelineOf (l : list Assignment) (m : Timeline) : Timeline :=
  fold_left (fun m a => fold_left (bump (allocationPercentage a)) (loopDays a) m)
    l m.

Definition sumPct (l : list Assignment) : Z :=
  fold_right (fun a s => allocationPercentage a + s) 0 l.

(** The sum of [allocationPercentage] over the assignments of [l]
    covering day [k]. *)
Definition coveringTotal (l : list Assignment) (k : Z) : Z :=
  sumPct (filter (fun a => coversDay a k) l).

(** The sum of [allocationPercentage] over the assignments of [l] whose
    loop writes day [k]. *)
Definition visitedTotal (l : list Assignment) (k : Z) : Z :=
  sumPct (filter (fun a => visitsDay a k) l).

(** What the loops of [checkAvailability] read of an assignment. *)
Definition schedule (a : Assignment) : Z * Date * Date :=
  (allocationPercentage a, startDate a, endDate a).

Definition ofEngineer (eng : Z) (l : list Assignment) : list Assignment :=
  filter (fun a => engineerId a =? eng) l.

Definition dayTotal (db : Db) (eng k : Z) : Z :=
  coveringTotal (ofEngineer eng (assignments db)) k.

(** No engineer is allocated more than 100 on any day. *)
Definition capacityInvariant (db : Db) : Prop :=
  forall eng k, dayTotal db eng k <= 100.

Definition calendarDates (a : Assignment) : Prop :=
  isCalendarDate (startDate a) /\ isCalendarDate (endDate a).

(** What every stored document satisfies once saved through the schema,
    together with the capacity invariant. *)
Record storeOk (db : Db) : Prop := mkStoreOk {
  ok_dates : Forall calendarDates (assignments db);
  ok_pct : Forall (fun a => 0 <= allocationPercentage a) (assignments db);
  ok_ids : NoDup (map _id (assignments db));
  ok_fresh : Forall (fun a => _id a < nextId db) (assignments db);
  ok_capacity : capacityInvariant db
}.

(** The stored assignments of the engineer of [this], [this] apart. *)
Definition others (db : Db) (this : Assignment) : list Assignment :=
  filter (fun a => (engineerId a =? engineerId this) && negb (_id a =? _id this))
    (assignments db).

(** What [a] adds to a sum restricted to the assignments passing [f]. *)
Definition share (f : Assignment -> bool) (a : Assignment) : Z :=
  if f a then allocationPercentage a else 0.

(** The two writes of [assignment.routes.js] that store dates and
    percentages, and their dispatch by the router. *)
Inductive Write :=
| Post (b : CreateBody)
| Patch (id : Z) (b : PatchBody).

Definition handleWrite (db : Db) (reqUser : Z) (w : Write) : Response * Db :=
  match w with
  | Post b => createAssignment db reqUser b
  | Patch id b => updateAssignment db reqUser id b
  end.



(** The update sets a percentage other than the stored one. *)
Definition changesPercentage (db : Db) (id : Z) (b : PatchBody) : bool :=
  match findById db id, pb_allocationPercentage b with
  | Some old, Some v => negb (v =? allocationPercentage old)
  | _, _ => false
  end.

(** The update carries neither [startDate] nor [endDate]. *)
Definition keepsDates (b : PatchBody) : bool :=
  match pb_startDate b, pb_endDate b with
  | None, None => true
  | _, _ => false
  end.

(** The writes whose capacity the save-time validator examines, and the
    updates that leave the dates alone. *)
Definition guardedWrite (db : Db) (w : Write) : bool :=
  match w with
  | Post _ => true
  | Patch id b => changesPercentage db id b || keepsDates b
  end.

(** Key insertion of a [Map]: a new key goes last, a present key stays. *)
Fixpoint addKey (ks : list Z) (k : Z) : list Z :=
  match ks with
  | [] => [k]
  | k' :: rest => if k =? k' then ks else k' :: addKey rest k
  end.

Definition insertionOrder (days : list Z) : list Z := fold_left addKey days [].

Definition disjointDays (a b : Assignment) : bool :=
  (dateKey (endDate a) <? dateKey (startDate b))
  || (dateKey (endDate b) <? dateKey (startDate a)).

Fixpoint pairwiseDisjoint (l : list Assignment) : bool :=
  match l with
  | [] => true
  | a :: rest => forallb (disjointDays a) rest && pairwiseDisjoint rest
  end.

(** ** The allocator as the specification words it

    Section 4.2 of the specification, steps 1 to 5, for comparison with
    [checkAvailability]. *)

Module Spec.

(** Step 1: the days of the window, in date order. *)
Definition windowDays (windowStart windowEnd : Date) : list Z :=
  daysFrom (dateKey windowStart)
    (Z.to_nat (dateKey windowEnd - dateKey windowStart + 1)).



(** Step 4. *)
Definition overCapacity (total : Z) : bool := total >? 100.

End Spec.

(** ** Scenarios *)

Definition mkA (i eng pct d1 d2 : Z) : Assignment :=
  {| _id := i; engineerId := eng; projectId := 1;
     allocationPercentage := pct;
     startDate := ofDay d1; endDate := ofDay d2; role := "dev" |}.

Definition dbOf (l : list Assignment) : Db :=
  {| users := [mkUser 1 engineer 100; mkUser 9 manager 100];
     projects := [mkProject 1 9];
     assignments := l;
     nextId := 1 + fold_right Z.max 0 (map _id l) |}.

(** ** The other handlers of [assignment.routes.js] *)

(** [router.get('/:id', ...)]. *)
Definition getAssignment (db : Db) (id : Z) : Response :=
  match findById db id with
  | None => mkResponse 404 (Message "Assignment not found")
  | Some assignment => mkResponse 200 (Document assignment)
  end.

(** [deleteOne({ _id })]: the first document with that id goes. *)
Fixpoint removeById (l : list Assignment) (i : Z) : list Assignment :=
  match l with
  | [] => []
  | a :: rest => if _id a =? i then rest else a :: removeById rest i
  end.

(** [router.delete('/:id', ...)], after [auth] and [authorize(['manager'])].
    A document whose project is gone makes [assignment.projectId.managerId]
    throw, which the handler answers with 500. *)
Definition deleteAssignment (db : Db) (reqUser : Z) (id : Z) : Response * Db :=
  match findById db id with
  | None => (mkResponse 404 (Message "Assignment not found"), db)
  | Some assignment =>
  match findProject db (projectId assignment) with
  | None => (mkResponse 500 (Message "Error deleting assignment"), db)
  | Some project =>
  if negb (managerId project =? reqUser) then
    (mkResponse 403 (Message "Not authorized to delete this assignment"), db)
  else
    (mkResponse 200 (Message "Assignment deleted successfully"),
     {| users := users db; projects := projects db;
        assignments := removeById (assignments db) (_id assignment);
        nextId := nextId db |})
  end end.

(** [.sort({ startDate: 1 })], as an insertion sort that keeps the store
    order among equal dates. *)
Fixpoint insertByStart (a : Assignment) (l : list Assignment) : list Assignment :=
  match l with
  | [] => [a]
  | b :: rest =>
      if startDate a <=? startDate b then a :: l else b :: insertByStart a rest
  end.

Definition sortByStart (l : list Assignment) : list Assignment :=
  fold_right insertByStart [] l.

(** The query string of [GET /]; an absent and an empty parameter are both
    falsy. *)
Record ListQuery := mkListQuery {
  q_projectId : option Z;
  q_engineerId : option Z;
  q_startDate : option Date;
  q_endDate : option Date
}.

Definition optMatch (q : option Z) (x : Z) : bool :=
  match q with Some v => x =? v | None => true end.

(** The [query] object the handler builds: the date range is added only
    when both bounds are given. *)
Definition matchesQuery (q : ListQuery) (a : Assignment) : bool :=
  optMatch (q_projectId q) (projectId a)
  && optMatch (q_engineerId q) (engineerId a)
  && match q_startDate q, q_endDate q with
     | Some s, Some e => (startDate a <=? e) && (endDate a >=? s)
     | _, _ => true
     end.

(** [router.get('/', ...)]: the array the handler answers with. *)
Definition listAssignments (db : Db) (q : ListQuery) : list Assignment :=
  sortByStart (filter (matchesQuery q) (assignments db)).

(** ** The handlers of [engineer.routes.js] on assignments *)

(** [router.get('/:id/assignments', ...)]. *)
Definition engineerAssignments (db : Db) (id : Z) : list Assignment :=
  sortByStart (filter (fun a => engineerId a =? id) (assignments db)).

Inductive AvailabilityReply :=
| AvailabilityBadRequest (message : string)
| AvailabilityOk (availability : Verdict)
| AvailabilityError (message : string).

(** [router.get('/:id/availability', ...)]: the two dates come from the
    query string. *)
Definition engineerAvailability (db : Db) (id : Z) (startDate endDate : option Date)
    : AvailabilityReply :=
  match startDate, endDate with
  | Some s, Some e =>
      match checkAvailability db id s e with
      | Some availability => AvailabilityOk availability
      | None => AvailabilityError "Error checking availability"
      end
  | _, _ => AvailabilityBadRequest "Start date and end date are required"
  end.







(** ** Deleting a project ([project.routes.js]) *)

Fixpoint removeProject (l : list Project) (p : Project) : list Project :=
  match l with
  | [] => []
  | x :: rest =>
      if projectKey x =? projectKey p then rest else x :: removeProject rest p
  end.

(** The assignments of the project that end at [now] or later. *)
Definition activeAssignments (db : Db) (p : Project) (now : Date)
    : list Assignment :=
  filter (fun a => (projectId a =? projectKey p) && (endDate a >=? now))
    (assignments db).

(** [router.delete('/:id', ...)] of the projects, after [auth] and
    [authorize(['manager'])]; [now] is the clock. *)
Definition deleteProject (db : Db) (reqUser : Z) (id : Z) (now : Date)
    : Response * Db :=
  match findManagedProject db id reqUser with
  | None => (mkResponse 404 (Message "Project not found"), db)
  | Some project =>
      match activeAssignments db project now with
      | _ :: _ =>
          (mkResponse 400
             (Message "Cannot delete project with active assignments"), db)
      | [] =>
          (mkResponse 200 (Message "Project deleted successfully"),
           {| users := users db;
              projects := removeProject (projects db) project;
              assignments := assignments db;
              nextId := nextId db |})
      end
  end.

(** ** What the schema guarantees of a stored document *)

(** The document passed [min], [max], the [endDate] validator and
    [required] on [role], and its engineer is a user with that role. *)
Definition documentOk (db : Db) (a : Assignment) : Prop :=
  0 <= allocationPercentage a <= 100
  /\ startDate a < endDate a
  /\ notEmpty (role a) = true
  /\ engineerIdValidator db (engineerId a) = true.

(** The project a write is about. *)
Definition writeProject (db : Db) (w : Write) : option Z :=
  match w with
  | Post b => Some (cb_projectId b)
  | Patch id _ =>
      match findById db id with
      | Some a => Some (projectId a)
      | None => None
      end
  end.

(** The engineer a write is about. *)
Definition writeEngineer (db : Db) (w : Write) : option Z :=
  match w with
  | Post b => Some (cb_engineerId b)
  | Patch id _ =>
      match findById db id with
      | Some a => Some (engineerId a)
      | None => None
      end
  end.

(** What an update cannot change of a document. *)
Definition identity (a : Assignment) : Z * Z * Z :=
  (_id a, engineerId a, projectId a).

Fixpoint sortedByStart (l : list Assignment) : Prop :=
  match l with
  | [] => True
  | a :: rest =>
      Forall (fun b => startDate a <= startDate b) rest /\ sortedByStart rest
  end.

(** A text that does not start with a space. *)
Definition headOk (l : list ascii) : Prop :=
  match l with
  | [] => True
  | c :: _ => isSpace c = false
  end.

(** ** [checkAvailability] in the time zone of the server

    [current.setDate(current.getDate() + 1)] moves [current] to the same
    wall-clock time of the next local day.  How many milliseconds that is
    depends on the time zone of the server, while the key of a day is its
    UTC date.  Here the step of the zone is a parameter, [nextDay]; on a
    server whose local time is UTC it is [addDay], and [checkAvailability]
    above is the evaluation on such a server. *)

Section TimeZone.

Variable nextDay : Date -> Date.

(** The [while] loop; [None] is an exhausted iteration budget. *)
Fixpoint dayLoopIn (fuel : nat) (pct : Z) (last : Date) (current : Date)
    (timelineMap : Timeline) : option Timeline :=
  match fuel with
  | O => None
  | S fuel' =>
      if current <=? last then
        let key := dateKey current in
        dayLoopIn fuel' pct last (nextDay current)
          (map_set timelineMap key (orZero (map_get timelineMap key) + pct))
      else Some timelineMap
  end.

(** [assignments.forEach(...)]; every loop has the budget [fuel]. *)
Fixpoint forEachAssignmentIn (fuel : nat) (l : list Assignment)
    (timelineMap : Timeline) : option Timeline :=
  match l with
  | [] => Some timelineMap
  | a :: rest =>
      match dayLoopIn fuel (allocationPercentage a) (endDate a) (startDate a)
              timelineMap with
      | Some m' => forEachAssignmentIn fuel rest m'
      | None => None
      end
  end.

(** Lines 85 to 101 of the model on the documents the query returned. *)
Definition evaluateIn (fuel : nat) (found : list Assignment) : option Verdict :=
  match forEachAssignmentIn fuel found [] with
  | Some timelineMap => Some (verdictOf timelineMap)
  | None => None
  end.

Definition checkAvailabilityIn (fuel : nat) (db : Db) (eng : Z)
    (windowStart windowEnd : Date) : option Verdict :=
  evaluateIn fuel (findOverlapping db eng windowStart windowEnd).

End TimeZone.

(** The evaluation of [found] ends, with the verdict [v]: every budget from
    some budget on gives [v]. *)
Definition evaluatesTo (nextDay : Date -> Date) (found : list Assignment)
    (v : Verdict) : Prop :=
  exists fuel0, forall fuel,
    (fuel0 <= fuel)%nat -> evaluateIn nextDay fuel found = Some v.

(** What the query of [checkAvailability] may return: the stored
    assignments that match, in an order the code does not fix (the query
    has no [sort]). *)
Definition queryResult (db : Db) (eng : Z) (windowStart windowEnd : Date)
    (found : list Assignment) : Prop :=
  Permutation found (findOverlapping db eng windowStart windowEnd).

(** A server whose local days are all 24 hours long, as with local time
    UTC: no daylight saving, no change of offset. *)
Definition utcServer (nextDay : Date -> Date) : Prop :=
  forall d, nextDay d = d + MS_PER_DAY.

(** A budget that suffices for every loop of [found] on such a server. *)
Definition budgetOf (found : list Assignment) : nat :=
  fold_right Nat.max O (map loopBudget found).

(** The range test of the code (the query of the validator and that of
    [checkAvailability]): the two ranges have an instant in common. *)
Definition overlaps (a b : Assignment) : bool :=
  (startDate a <=? endDate b) && (endDate a >=? startDate b).

Fixpoint pairwiseApart (l : list Assignment) : bool :=
  match l with
  | [] => true
  | a :: rest => forallb (fun b => negb (overlaps a b)) rest && pairwiseApart rest
  end.

(** The step of a server in New York around the start of daylight saving
    in 2024: local time is UTC-5 until 2024-03-10 07:00 UTC (02:00 local)
    and UTC-4 from then on.  [setDate] works on the local time value and
    converts back with the offset in force at the local time reached. *)
Definition HOUR : Z := 3600000.

Definition springForwardUTC : Date := 19792 * MS_PER_DAY + 7 * HOUR.

Definition springForwardLocal : Z := 19792 * MS_PER_DAY + 2 * HOUR.

Definition newYorkOffset (utc : Date) : Z :=
  if utc <? springForwardUTC then - (5 * HOUR) else - (4 * HOUR).

Definition newYorkOffsetOfLocal (local : Z) : Z :=
  if local <? springForwardLocal then - (5 * HOUR) else - (4 * HOUR).

Definition newYorkNextDay (d : Date) : Date :=
  let local := d + newYorkOffset d + MS_PER_DAY in
  local - newYorkOffsetOfLocal local.

(** * Properties *)

(** ** Dates *)

Lemma MS_PER_DAY_pos : 0 < MS_PER_DAY.
Proof. unfold MS_PER_DAY. lia. Qed.

Lemma dateKey_addDay (d : Date) : dateKey (addDay d) = dateKey d + 1.
Proof.
  unfold dateKey, addDay.
  replace (d + MS_PER_DAY) with (d + 1 * MS_PER_DAY) by lia.
  rewrite Z.div_add by (unfold MS_PER_DAY; lia). reflexivity.
Qed.

Lemma dateKey_ofDay (k : Z) : dateKey (ofDay k) = k.
Proof.
  unfold dateKey, ofDay. apply Z.div_mul. unfold MS_PER_DAY. lia.
Qed.

Lemma ofDay_calendar (k : Z) : isCalendarDate (ofDay k).
Proof.
  unfold isCalendarDate, ofDay. apply Z.mod_mul. unfold MS_PER_DAY. lia.
Qed.

Lemma calendar_ofDay (d : Date) : isCalendarDate d -> d = ofDay (dateKey d).
Proof.
  unfold isCalendarDate, ofDay, dateKey. intros H.
  pose proof (Z.div_mod d MS_PER_DAY) as E.
  rewrite H in E. specialize (E ltac:(unfold MS_PER_DAY; lia)). lia.
Qed.

Lemma calendar_le (d1 d2 : Date) :
  isCalendarDate d1 -> isCalendarDate d2 ->
  (d1 <= d2 <-> dateKey d1 <= dateKey d2).
Proof.
  intros H1 H2. rewrite (calendar_ofDay _ H1) at 1.
  rewrite (calendar_ofDay _ H2) at 1. unfold ofDay.
  pose proof MS_PER_DAY_pos. nia.
Qed.

(** ** The timeline map *)

Section TimelineMap.

Implicit Types (m : Timeline) (k v : Z).

Lemma orZero_Some v : orZero (Some v) = v.
Proof. simpl. destruct (Z.eqb_spec v 0); congruence. Qed.

Lemma map_get_set_same m k v : map_get (map_set m k v) k = Some v.
Proof.
  induction m as [| [k' v'] rest IH]; simpl.
  - now rewrite Z.eqb_refl.
  - destruct (Z.eqb_spec k k') as [-> | Hne]; simpl.
    + now rewrite Z.eqb_refl.
    + destruct (Z.eqb_spec k k'); [contradiction | exact IH].
Qed.

Lemma map_get_set_other m k k' v :
  k' <> k -> map_get (map_set m k v) k' = map_get m k'.
Proof.
  intros Hne. induction m as [| [k0 v0] rest IH]; simpl.
  - destruct (Z.eqb_spec k' k); [contradiction | reflexivity].
  - destruct (Z.eqb_spec k k0) as [-> | Hk]; simpl.
    + destruct (Z.eqb_spec k' k0); [contradiction | reflexivity].
    + destruct (Z.eqb_spec k' k0); [reflexivity | exact IH].
Qed.

Lemma map_keys_set m k v : map_keys (map_set m k v) = addKey (map_keys m) k.
Proof.
  unfold map_keys. induction m as [| [k' v'] rest IH]; simpl.
  - reflexivity.
  - destruct (Z.eqb_spec k k'); simpl; [reflexivity | now rewrite IH].
Qed.

Lemma map_get_None m k : map_get m k = None <-> ~ In k (map_keys m).
Proof.
  unfold map_keys. induction m as [| [k' v'] rest IH]; simpl.
  - tauto.
  - destruct (Z.eqb_spec k k') as [-> | Hne].
    + split; [discriminate | intros H; exfalso; apply H; now left].
    + rewrite IH. split; [intros H [E | HI]; [congruence | tauto] | tauto].
Qed.

Lemma map_get_In m k v : map_get m k = Some v -> In (k, v) m.
Proof.
  induction m as [| [k' v'] rest IH]; simpl; [discriminate |].
  destruct (Z.eqb_spec k k') as [-> | Hne].
  - intros [= ->]. now left.
  - intros H. right. now apply IH.
Qed.

Lemma In_map_get m k v : NoDup (map_keys m) -> In (k, v) m -> map_get m k = Some v.
Proof.
  unfold map_keys. induction m as [| [k' v'] rest IH]; simpl; [tauto |].
  intros Hnd [E | HI].
  - inversion E; subst. now rewrite Z.eqb_refl.
  - inversion Hnd as [| ? ? Hnotin Hnd']; subst.
    destruct (Z.eqb_spec k k') as [-> | Hne].
    + exfalso. apply Hnotin. change k' with (fst (k', v)). now apply in_map.
    + now apply IH.
Qed.

Lemma In_addKey ks k k' : In k' (addKey ks k) <-> k' = k \/ In k' ks.
Proof.
  induction ks as [| k0 rest IH]; simpl.
  - intuition.
  - destruct (Z.eqb_spec k k0) as [-> | Hne]; simpl.
    + intuition.
    + rewrite IH. intuition.
Qed.

Lemma NoDup_addKey ks k : NoDup ks -> NoDup (addKey ks k).
Proof.
  induction ks as [| k0 rest IH]; simpl; intros Hnd.
  - constructor; [intros [] | constructor].
  - destruct (Z.eqb_spec k k0) as [-> | Hne]; [exact Hnd |].
    inversion Hnd as [| ? ? Hnotin Hnd']; subst. constructor.
    + rewrite In_addKey. intros [E | HI]; [congruence | contradiction].
    + now apply IH.
Qed.

Lemma In_fold_addKey days ks k :
  In k (fold_left addKey days ks) <-> In k ks \/ In k days.
Proof.
  revert ks. induction days as [| d rest IH]; simpl; intros ks.
  - tauto.
  - rewrite IH, In_addKey. intuition.
Qed.

Lemma NoDup_fold_addKey days ks : NoDup ks -> NoDup (fold_left addKey days ks).
Proof.
  revert ks. induction days as [| d rest IH]; simpl; intros ks Hnd.
  - exact Hnd.
  - apply IH. now apply NoDup_addKey.
Qed.

Lemma total_bump pct m k k' :
  total (bump pct m k) k' = total m k' + (if k' =? k then pct else 0).
Proof.
  unfold total, bump. destruct (Z.eqb_spec k' k) as [-> | Hne].
  - rewrite map_get_set_same, orZero_Some. reflexivity.
  - rewrite map_get_set_other by exact Hne. lia.
Qed.

Lemma keys_bump pct m k : map_keys (bump pct m k) = addKey (map_keys m) k.
Proof. apply map_keys_set. Qed.

Lemma total_fold_bump pct ks m k :
  total (fold_left (bump pct) ks m) k = total m k + pct * occurrences k ks.
Proof.
  revert m. induction ks as [| k0 rest IH]; simpl; intros m.
  - lia.
  - rewrite IH, total_bump. destruct (k =? k0); lia.
Qed.

Lemma keys_fold_bump pct ks m :
  map_keys (fold_left (bump pct) ks m) = fold_left addKey ks (map_keys m).
Proof.
  revert m. induction ks as [| k0 rest IH]; simpl; intros m.
  - reflexivity.
  - now rewrite IH, keys_bump.
Qed.

Lemma map_get_total m k :
  map_get m k = if in_dec Z.eq_dec k (map_keys m) then Some (total m k) else None.
Proof.
  destruct (in_dec Z.eq_dec k (map_keys m)) as [HI | HN].
  - unfold total. destruct (map_get m k) as [v |] eqn:E.
    + now rewrite orZero_Some.
    + apply map_get_None in E. contradiction.
  - now apply map_get_None.
Qed.

End TimelineMap.

(** ** The loop over the days of one assignment *)

Lemma In_daysFrom n d k : In k (daysFrom d n) <-> d <= k < d + Z.of_nat n.
Proof.
  revert d. induction n as [| n IH]; intros d; simpl daysFrom.
  - simpl. lia.
  - simpl In. rewrite IH. lia.
Qed.

Lemma occurrences_daysFrom n d k :
  occurrences k (daysFrom d n)
  = if (d <=? k) && (k <? d + Z.of_nat n) then 1 else 0.
Proof.
  revert d. induction n as [| n IH]; intros d; simpl daysFrom; simpl occurrences.
  - destruct (Z.leb_spec d k), (Z.ltb_spec k (d + Z.of_nat 0)); simpl; lia.
  - rewrite IH.
    destruct (Z.eqb_spec k d), (Z.leb_spec (d + 1) k), (Z.leb_spec d k),
      (Z.ltb_spec k (d + 1 + Z.of_nat n)), (Z.ltb_spec k (d + Z.of_nat (S n)));
      simpl; lia.
Qed.

Lemma dayCount_nonneg a : 0 <= dayCount a.
Proof.
  unfold dayCount. destruct (Z.leb_spec (startDate a) (endDate a)); [| lia].
  pose proof (Z.div_pos (endDate a - startDate a) MS_PER_DAY
                ltac:(lia) MS_PER_DAY_pos). lia.
Qed.

Lemma occurrences_loopDays a k :
  occurrences k (loopDays a) = if visitsDay a k then 1 else 0.
Proof.
  unfold loopDays, visitsDay. rewrite occurrences_daysFrom.
  rewrite Z2Nat.id by apply dayCount_nonneg. reflexivity.
Qed.

Lemma In_loopDays a k : In k (loopDays a) <-> visitsDay a k = true.
Proof.
  unfold loopDays, visitsDay. rewrite In_daysFrom.
  rewrite Z2Nat.id by apply dayCount_nonneg.
  rewrite andb_true_iff, Z.leb_le, Z.ltb_lt. tauto.
Qed.

(** The loop ends within its budget, having bumped each of its days once. *)
Lemma dayLoop_run (pct : Z) (last : Date) :
  forall (fuel : nat) (current : Date) (m : Timeline),
    (Z.to_nat (if current <=? last
               then (last - current) / MS_PER_DAY + 1 else 0)%Z < fuel)%nat ->
    dayLoop fuel pct last current m
    = Some (fold_left (bump pct)
              (daysFrom (dateKey current)
                 (Z.to_nat (if current <=? last
                            then (last - current) / MS_PER_DAY + 1 else 0)))
              m).
Proof.
  induction fuel as [| fuel IH]; intros current m Hfuel; [lia |].
  simpl dayLoop. destruct (Z.leb_spec current last) as [Hle | Hgt].
  - assert (Hstep :
      (last - current) / MS_PER_DAY + 1
      = (if addDay current <=? last
         then (last - addDay current) / MS_PER_DAY + 1 else 0) + 1).
    { unfold addDay. pose proof MS_PER_DAY_pos as Hpos.
      destruct (Z.leb_spec (current + MS_PER_DAY) last) as [H1 | H1].
      - replace (last - current)
          with ((last - (current + MS_PER_DAY)) + 1 * MS_PER_DAY) by lia.
        rewrite Z.div_add by lia. lia.
      - rewrite Z.div_small by lia. lia. }
    assert (Hnn : 0 <= (if addDay current <=? last
                        then (last - addDay current) / MS_PER_DAY + 1 else 0)).
    { destruct (Z.leb_spec (addDay current) last); [| lia].
      pose proof (Z.div_pos (last - addDay current) MS_PER_DAY
                    ltac:(lia) MS_PER_DAY_pos). lia. }
    rewrite Hstep in *. rewrite Z2Nat.inj_add in * by lia.
    change (Z.to_nat 1) with 1%nat in *. rewrite Nat.add_1_r in *.
    rewrite IH by lia. simpl daysFrom. simpl fold_left.
    rewrite dateKey_addDay. reflexivity.
  - reflexivity.
Qed.

Lemma dayLoop_assignment a m :
  dayLoop (loopBudget a) (allocationPercentage a) (endDate a) (startDate a) m
  = Some (fold_left (bump (allocationPercentage a)) (loopDays a) m).
Proof.
  unfold loopDays, dayCount. apply dayLoop_run. unfold loopBudget.
  destruct (Z.leb_spec (startDate a) (endDate a)); simpl Z.to_nat; lia.
Qed.

Lemma forEachAssignment_run l : forall m,
  forEachAssignment l m = Some (timelineOf l m).
Proof.
  induction l as [| a rest IH]; intros m; cbn [forEachAssignment].
  - reflexivity.
  - rewrite dayLoop_assignment. apply IH.
Qed.

(** [checkAvailability] always returns, with the verdict of the timeline. *)
Lemma checkAvailability_run db eng windowStart windowEnd :
  checkAvailability db eng windowStart windowEnd
  = Some (verdictOf (timelineOf (findOverlapping db eng windowStart windowEnd) [])).
Proof. unfold checkAvailability. now rewrite forEachAssignment_run. Qed.

(** ** The timeline of a list of assignments *)

Lemma visitsDay_calendar a k :
  calendarDates a -> visitsDay a k = coversDay a k.
Proof.
  intros [Hs He]. unfold visitsDay, coversDay, dayCount.
  pose proof MS_PER_DAY_pos as Hpos.
  rewrite (calendar_ofDay _ Hs), (calendar_ofDay _ He), !dateKey_ofDay.
  generalize (dateKey (startDate a)) (dateKey (endDate a)). intros ks ke.
  unfold ofDay.
  destruct (Z.leb_spec (ks * MS_PER_DAY) (ke * MS_PER_DAY)) as [H | H].
  - replace (ke * MS_PER_DAY - ks * MS_PER_DAY)
      with ((ke - ks) * MS_PER_DAY) by lia.
    rewrite Z.div_mul by lia.
    destruct (Z.leb_spec ks k), (Z.leb_spec k ke),
      (Z.ltb_spec k (ks + (ke - ks + 1))); simpl; lia.
  - destruct (Z.leb_spec ks k), (Z.leb_spec k ke),
      (Z.ltb_spec k (ks + 0)); simpl; nia.
Qed.

Lemma visitsDay_covers a k : visitsDay a k = true -> coversDay a k = true.
Proof.
  unfold visitsDay, coversDay, dayCount.
  rewrite !andb_true_iff, !Z.leb_le, Z.ltb_lt. intros [H1 H2]. split; [exact H1 |].
  pose proof MS_PER_DAY_pos as Hpos.
  destruct (Z.leb_spec (startDate a) (endDate a)) as [H | H]; [| lia].
  unfold dateKey in *.
  assert (E : endDate a = (endDate a - startDate a) + startDate a) by lia.
  pose proof (Z.div_mod (endDate a - startDate a) MS_PER_DAY ltac:(lia)) as D1.
  pose proof (Z.mod_pos_bound (endDate a - startDate a) MS_PER_DAY Hpos) as B1.
  assert (L : ((endDate a - startDate a) / MS_PER_DAY) * MS_PER_DAY + startDate a
              <= endDate a) by lia.
  apply (Z.div_le_mono _ _ MS_PER_DAY Hpos) in L.
  rewrite Z.add_comm, Z.div_add in L by lia. lia.
Qed.



Lemma total_timelineOf l k : forall m,
  total (timelineOf l m) k = total m k + visitedTotal l k.
Proof.
  unfold timelineOf, visitedTotal.
  induction l as [| a rest IH]; intros m; simpl.
  - lia.
  - rewrite IH, total_fold_bump, occurrences_loopDays.
    destruct (visitsDay a k); simpl; lia.
Qed.

Lemma keys_timelineOf l : forall m,
  map_keys (timelineOf l m)
  = fold_left addKey (flat_map loopDays l) (map_keys m).
Proof.
  unfold timelineOf. induction l as [| a rest IH]; intros m; simpl.
  - reflexivity.
  - rewrite IH, keys_fold_bump, fold_left_app. reflexivity.
Qed.

Lemma keys_timelineOf_empty l :
  map_keys (timelineOf l []) = insertionOrder (flat_map loopDays l).
Proof. now rewrite keys_timelineOf. Qed.

Lemma NoDup_keys_timelineOf l : NoDup (map_keys (timelineOf l [])).
Proof.
  rewrite keys_timelineOf. apply NoDup_fold_addKey. constructor.
Qed.

Lemma In_keys_timelineOf l k :
  In k (map_keys (timelineOf l [])) <-> existsb (fun a => visitsDay a k) l = true.
Proof.
  rewrite keys_timelineOf, In_fold_addKey, in_flat_map, existsb_exists. simpl.
  split.
  - intros [[] | (a & Ha & Hk)]. exists a. split; [exact Ha |].
    now apply In_loopDays.
  - intros (a & Ha & Hk). right. exists a. split; [exact Ha |].
    now apply In_loopDays.
Qed.

(** The entry of a day: the sum over the assignments whose loop reaches it,
    and no entry when none does. *)
Lemma map_get_timelineOf l k :
  map_get (timelineOf l []) k
  = if existsb (fun a => visitsDay a k) l then Some (visitedTotal l k) else None.
Proof.
  rewrite map_get_total.
  destruct (in_dec Z.eq_dec k (map_keys (timelineOf l []))) as [HI | HN].
  - apply In_keys_timelineOf in HI. rewrite HI, total_timelineOf.
    unfold total. simpl. reflexivity.
  - destruct (existsb (fun a => visitsDay a k) l) eqn:E; [| reflexivity].
    apply In_keys_timelineOf in E. contradiction.
Qed.


Lemma Forall_filter (A : Type) (P : A -> Prop) (f : A -> bool) (l : list A) :
  Forall P l -> Forall P (filter f l).
Proof.
  intros H. apply Forall_forall. intros x Hx. apply filter_In in Hx.
  rewrite Forall_forall in H. now apply H.
Qed.

Lemma filter_filter_and (f g : Assignment -> bool) l :
  filter f (filter g l) = filter (fun a => g a && f a) l.
Proof.
  induction l as [| a l IH]; simpl; [reflexivity |].
  destruct (g a); simpl; [destruct (f a) |]; now rewrite IH.
Qed.

(** The verdict flag, read off the entries. *)
Lemma isAvailable_verdictOf m :
  NoDup (map_keys m) ->
  (isAvailable (verdictOf m) = true
   <-> forall k v, map_get m k = Some v -> v < CAPACITY).
Proof.
  intros Hnd. unfold verdictOf, map_values. simpl. rewrite forallb_forall. split.
  - intros H k v Hg. apply Z.ltb_lt. apply H.
    change v with (snd (k, v)). apply in_map. now apply map_get_In.
  - intros H v Hv. apply in_map_iff in Hv. destruct Hv as ([k v'] & <- & HI).
    apply Z.ltb_lt. apply (H k). now apply In_map_get.
Qed.

Lemma isAvailable_false_verdictOf m :
  NoDup (map_keys m) ->
  (isAvailable (verdictOf m) = false
   <-> exists k v, map_get m k = Some v /\ CAPACITY <= v).
Proof.
  intros Hnd. split.
  - unfold verdictOf, map_values. simpl. intros H.
    assert (E : existsb (fun value => negb (value <? CAPACITY)) (map snd m) = true).
    { clear Hnd. induction (map snd m) as [| x l IH]; simpl in *; [discriminate |].
      destruct (x <? CAPACITY); simpl in *; [now apply IH | reflexivity]. }
    apply existsb_exists in E. destruct E as (v & Hv & Hlt).
    apply in_map_iff in Hv. destruct Hv as ([k v'] & <- & HI). simpl in Hlt.
    exists k, v'. split; [now apply In_map_get |].
    apply negb_true_iff, Z.ltb_ge in Hlt. exact Hlt.
  - intros (k & v & Hg & Hle).
    destruct (isAvailable (verdictOf m)) eqn:E; [| reflexivity].
    pose proof (proj1 (isAvailable_verdictOf m Hnd) E k v Hg). lia.
Qed.

(** ** The availability verdict *)

(** C2, as the code has it: a day triggers unavailability if and only if
    its total is at least 100.  A day at exactly 100 makes the engineer
    unavailable; the verdict is available when every day is at most 99. *)
Theorem availability_threshold (db : Db) (eng : Z) (windowStart windowEnd : Date) :
  exists v,
    checkAvailability db eng windowStart windowEnd = Some v
    /\ (isAvailable v = false
        <-> exists k t, map_get (allocations v) k = Some t /\ 100 <= t)
    /\ (isAvailable v = true
        <-> forall k t, map_get (allocations v) k = Some t -> t <= 99).
Proof.
  rewrite checkAvailability_run. eexists. split; [reflexivity |].
  set (m := timelineOf _ _).
  assert (Hnd : NoDup (map_keys m)) by apply NoDup_keys_timelineOf.
  split.
  - apply (isAvailable_false_verdictOf m Hnd).
  - rewrite (isAvailable_verdictOf m Hnd). unfold CAPACITY. simpl.
    split; intros H k t Hg; specialize (H k t Hg); lia.
Qed.

(** C2 as stated fails: every day of the timeline is at exactly 100, none
    exceeds it, and the verdict is unavailable. *)
Lemma threshold_counterexample :
  exists v,
    checkAvailability (dbOf [mkA 1 1 100 1 2]) 1 (ofDay 1) (ofDay 2) = Some v
    /\ allocations v = [(1, 100); (2, 100)]
    /\ forallb (fun t => negb (Spec.overCapacity t)) (map_values (allocations v))
       = true
    /\ isAvailable v = false.
Proof. eexists. repeat split; vm_compute; reflexivity. Qed.




(** C5, as the code has it: the evaluation raises no error.  For every
    window, also one that ends before it starts, and with no candidate
    percentage among its inputs, it returns the verdict of the stored
    assignments that start by [windowEnd] and end from [windowStart] on. *)
Theorem evaluation_never_fails (db : Db) (eng : Z) (windowStart windowEnd : Date) :
  checkAvailability db eng windowStart windowEnd
  = Some (verdictOf
            (timelineOf
               (filter (fun a => (engineerId a =? eng)
                                 && (startDate a <=? windowEnd)
                                 && (endDate a >=? windowStart))
                  (assignments db)) [])).
Proof. apply checkAvailability_run. Qed.

(** C5 as stated fails: the window ends five days before it starts and a
    verdict is produced. *)
Lemma reversed_window_counterexample :
  ofDay 3 < ofDay 8
  /\ checkAvailability (dbOf [mkA 1 1 100 2 9]) 1 (ofDay 8) (ofDay 3)
     = Some {| isAvailable := false;
               allocations := [(2, 100); (3, 100); (4, 100); (5, 100);
                               (6, 100); (7, 100); (8, 100); (9, 100)] |}.
Proof. split; vm_compute; reflexivity. Qed.

(** Range and percentage are checked when a document is saved. *)
Lemma save_rejects_percentage db isNew isModified doc :
  allocationPercentage doc < 0 \/ 100 < allocationPercentage doc ->
  save db isNew isModified doc = None.
Proof.
  intros H. unfold save, validateDoc.
  destruct (Z.leb_spec 0 (allocationPercentage doc)),
    (Z.leb_spec (allocationPercentage doc) 100);
    try lia; rewrite ?andb_false_r; reflexivity.
Qed.

Lemma save_rejects_range db isNew isModified doc :
  endDate doc <= startDate doc -> save db isNew isModified doc = None.
Proof.
  intros H. unfold save, validateDoc, endDateValidator.
  destruct (Z.gtb_spec (endDate doc) (startDate doc)); [lia |].
  rewrite ?andb_false_r. reflexivity.
Qed.

(** ** Assignments that share no day *)

Lemma disjointDays_covers a b k :
  disjointDays a b = true -> coversDay a k = true -> coversDay b k = false.
Proof.
  unfold disjointDays, coversDay.
  rewrite orb_true_iff, andb_true_iff, andb_false_iff, !Z.ltb_lt, !Z.leb_le,
    !Z.leb_gt. lia.
Qed.

Lemma visitedTotal_none l k :
  (forall b, In b l -> coversDay b k = false) -> visitedTotal l k = 0.
Proof.
  unfold visitedTotal. induction l as [| b rest IH]; simpl; intros H.
  - reflexivity.
  - destruct (visitsDay b k) eqn:E.
    + apply visitsDay_covers in E. rewrite (H b) in E by now left. discriminate.
    + apply IH. intros c Hc. apply H. now right.
Qed.

Lemma visitedTotal_disjoint l k :
  pairwiseDisjoint l = true ->
  forallb (fun a => allocationPercentage a <? 100) l = true ->
  visitedTotal l k < 100.
Proof.
  induction l as [| a rest IH]; simpl; intros Hd Hp.
  - unfold visitedTotal. simpl. lia.
  - apply andb_true_iff in Hd. destruct Hd as [Ha Hd].
    apply andb_true_iff in Hp. destruct Hp as [Hpa Hp].
    apply Z.ltb_lt in Hpa. rewrite forallb_forall in Ha.
    unfold visitedTotal. simpl. destruct (visitsDay a k) eqn:E.
    + simpl. fold (visitedTotal rest k). rewrite visitedTotal_none; [lia |].
      intros b Hb. apply (disjointDays_covers a b k); [now apply Ha |].
      now apply visitsDay_covers.
    + now apply IH.
Qed.

(** C6 as stated fails: one assignment, at 100, and the engineer is
    unavailable. *)
Lemma disjoint_counterexample :
  let db := dbOf [mkA 1 1 100 1 3] in
  let found := findOverlapping db 1 (ofDay 1) (ofDay 3) in
  pairwiseDisjoint found = true
  /\ forallb (fun a => (0 <=? allocationPercentage a)
                       && (allocationPercentage a <=? 100)) found = true
  /\ exists v,
       checkAvailability db 1 (ofDay 1) (ofDay 3) = Some v
       /\ isAvailable v = false.
Proof.
  split; [| split]; [vm_compute; reflexivity ..|].
  eexists. split; vm_compute; reflexivity.
Qed.

(** ** The keys of the allocations *)

(** C7 as stated fails.  With 60 stored on days 1 to 10 and the window
    days 5 to 15, the keys are days 1 to 10: days 11 to 15 of the window are
    missing and days 1 to 4, outside it, are present. *)
Lemma window_keys_counterexample :
  exists v,
    checkAvailability (dbOf [mkA 1 1 60 1 10]) 1 (ofDay 5) (ofDay 15) = Some v
    /\ map_keys (allocations v) = [1; 2; 3; 4; 5; 6; 7; 8; 9; 10]
    /\ Spec.windowDays (ofDay 5) (ofDay 15)
       = [5; 6; 7; 8; 9; 10; 11; 12; 13; 14; 15].
Proof. eexists. repeat split; vm_compute; reflexivity. Qed.

(** ** The engineer's own capacity *)

Lemma timelineOf_schedule l1 : forall l2 m,
  map schedule l1 = map schedule l2 -> timelineOf l1 m = timelineOf l2 m.
Proof.
  unfold timelineOf.
  induction l1 as [| a l1 IH]; intros [| b l2] m H; simpl in H; try discriminate.
  - reflexivity.
  - unfold schedule in H. inversion H as [[Hp Hs He Hl]].
    simpl. unfold loopDays, dayCount. rewrite Hp, Hs, He. now apply IH.
Qed.

(** C10: the verdict is read off the assignments alone and compared with
    the constant 100; [maxCapacity], and the [users] collection as a whole,
    play no part.  Two engineers whose found assignments carry the same
    percentages and dates receive the same verdict. *)
Theorem verdict_ignores_maxCapacity
    (db1 db2 : Db) (eng1 eng2 : Z) (windowStart windowEnd : Date) :
  map schedule (findOverlapping db1 eng1 windowStart windowEnd)
  = map schedule (findOverlapping db2 eng2 windowStart windowEnd) ->
  checkAvailability db1 eng1 windowStart windowEnd
  = checkAvailability db2 eng2 windowStart windowEnd
  /\ exists v,
       checkAvailability db1 eng1 windowStart windowEnd = Some v
       /\ isAvailable v
          = forallb (fun t => t <? 100) (map_values (allocations v)).
Proof.
  intros H. rewrite !checkAvailability_run.
  rewrite (timelineOf_schedule _ _ [] H). split; [reflexivity |].
  eexists. split; reflexivity.
Qed.

Lemma verdict_ignores_maxCapacity_witness :
  let db1 := {| users := [mkUser 1 engineer 100]; projects := [mkProject 1 9];
                assignments := [mkA 1 1 70 1 5]; nextId := 2 |} in
  let db2 := {| users := [mkUser 2 engineer 40]; projects := [mkProject 1 9];
                assignments := [mkA 1 2 70 1 5]; nextId := 2 |} in
  checkAvailability db1 1 (ofDay 2) (ofDay 3)
  = checkAvailability db2 2 (ofDay 2) (ofDay 3)
  /\ exists v,
       checkAvailability db1 1 (ofDay 2) (ofDay 3) = Some v
       /\ isAvailable v
          = forallb (fun t => t <? 100) (map_values (allocations v)).
Proof.
  intros db1 db2.
  apply (verdict_ignores_maxCapacity db1 db2 1 2 (ofDay 2) (ofDay 3)).
  vm_compute. reflexivity.
Defined.

(** ** Sums of percentages *)


Lemma fold_left_sumPct l : forall z,
  fold_left (fun sum assignment => sum + allocationPercentage assignment) l z
  = z + sumPct l.
Proof.
  induction l as [| a l IH]; intros z; simpl.
  - lia.
  - rewrite IH. lia.
Qed.

Lemma sumPct_filter_cons f a l :
  sumPct (filter f (a :: l)) = share f a + sumPct (filter f l).
Proof. unfold share. simpl. destruct (f a); reflexivity. Qed.

Lemma sumPct_filter_le (f g : Assignment -> bool) l :
  Forall (fun a => 0 <= allocationPercentage a) l ->
  (forall a, In a l -> f a = true -> g a = true) ->
  sumPct (filter f l) <= sumPct (filter g l).
Proof.
  intros Hp. induction Hp as [| a l Ha Hp IH]; intros Hfg.
  - simpl. lia.
  - rewrite !sumPct_filter_cons.
    specialize (IH (fun b Hb => Hfg b (or_intror Hb))).
    pose proof (Hfg a (or_introl eq_refl)) as Hfa. unfold share.
    destruct (f a) eqn:Ef, (g a) eqn:Eg;
      first [discriminate (Hfa eq_refl) | lia].
Qed.


Lemma dayTotal_filter db eng k :
  dayTotal db eng k
  = sumPct (filter (fun a => (engineerId a =? eng) && coversDay a k)
              (assignments db)).
Proof. unfold dayTotal, coveringTotal, ofEngineer. now rewrite filter_filter_and. Qed.

Lemma coveringTotal_others db this k :
  coveringTotal (others db this) k
  = sumPct (filter (fun a => (engineerId a =? engineerId this)
                             && negb (_id a =? _id this) && coversDay a k)
              (assignments db)).
Proof. unfold coveringTotal, others. now rewrite filter_filter_and. Qed.

Lemma totalAllocation_sum db this value :
  totalAllocation db this value
  = sumPct (filter (competes this) (assignments db)) + value.
Proof.
  unfold totalAllocation, currentAssignments. rewrite fold_left_sumPct. lia.
Qed.

(** For calendar dates, covering a common day is overlapping. *)
Lemma covers_competes this a k :
  calendarDates this -> calendarDates a ->
  coversDay this k = true -> coversDay a k = true ->
  ((startDate a <=? endDate this) && (endDate a >=? startDate this)) = true.
Proof.
  intros [Hts Hte] [Has Hae]. unfold coversDay.
  rewrite !andb_true_iff, !Z.leb_le, Z.geb_le. intros [H1 H2] [H3 H4]. split.
  - apply (calendar_le _ _ Has Hte). lia.
  - apply (calendar_le _ _ Hts Hae). lia.
Qed.

(** What an accepted percentage guarantees, day by day. *)
Lemma validator_bound db this value k :
  Forall calendarDates (assignments db) ->
  calendarDates this ->
  Forall (fun a => 0 <= allocationPercentage a) (assignments db) ->
  (totalAllocation db this value <=? 100) = true ->
  coversDay this k = true ->
  value + coveringTotal (others db this) k <= 100.
Proof.
  intros Hcal Hthis Hpct Hv Hk. apply Z.leb_le in Hv.
  rewrite totalAllocation_sum in Hv. rewrite coveringTotal_others.
  assert (sumPct (filter (fun a => (engineerId a =? engineerId this)
                                   && negb (_id a =? _id this) && coversDay a k)
                    (assignments db))
          <= sumPct (filter (competes this) (assignments db))); [| lia].
  apply sumPct_filter_le; [exact Hpct |].
  intros a Ha. rewrite Forall_forall in Hcal. unfold competes.
  rewrite !andb_true_iff. intros [[He Hi] Hc].
  pose proof (covers_competes this a k Hthis (Hcal a Ha) Hk Hc) as Ho.
  apply andb_true_iff in Ho. tauto.
Qed.

(** C9, for calendar dates: an accepted percentage is sound for every day
    of the candidate.  When the dates of the candidate and of the stored
    assignments have no time of day, and the validator runs (the document
    is new or its percentage is modified) and accepts, the candidate's
    percentage plus the percentages of the other stored assignments of the
    engineer covering a day of the candidate is at most 100. *)
Theorem validator_sound
    (db : Db) (isNew isModified : bool) (this : Assignment) (value k : Z) :
  Forall calendarDates (assignments db) ->
  calendarDates this ->
  Forall (fun a => 0 <= allocationPercentage a) (assignments db) ->
  isNew || isModified = true ->
  allocationValidator db isNew isModified this value = true ->
  coversDay this k = true ->
  value + coveringTotal (others db this) k <= 100.
Proof.
  intros Hcal Hthis Hpct Hrun Hv Hk. unfold allocationValidator in Hv.
  rewrite Hrun in Hv. now apply validator_bound.
Qed.

Lemma validator_sound_witness :
  30 + coveringTotal
         (others (dbOf [mkA 1 1 60 1 10; mkA 2 1 40 11 20; mkA 3 2 90 1 20])
            (mkA 4 1 30 5 9)) 7
  <= 100.
Proof.
  apply (validator_sound
           (dbOf [mkA 1 1 60 1 10; mkA 2 1 40 11 20; mkA 3 2 90 1 20])
           true false (mkA 4 1 30 5 9) 30 7).
  - simpl. repeat constructor; vm_compute; reflexivity.
  - split; vm_compute; reflexivity.
  - simpl. repeat constructor; vm_compute; discriminate.
  - reflexivity.
  - vm_compute. reflexivity.
  - vm_compute. reflexivity.
Defined.

(** Without any assumption on the time of day, the accepted percentage is
    sound at every instant of the candidate. *)
Lemma validator_bound_instant db this value t :
  Forall (fun a => 0 <= allocationPercentage a) (assignments db) ->
  (totalAllocation db this value <=? 100) = true ->
  coversInstant this t = true ->
  value + sumPct (filter (fun a => coversInstant a t) (others db this)) <= 100.
Proof.
  intros Hpct Hv Ht. apply Z.leb_le in Hv. rewrite totalAllocation_sum in Hv.
  unfold others. rewrite filter_filter_and.
  assert (sumPct (filter (fun a => (engineerId a =? engineerId this)
                                   && negb (_id a =? _id this)
                                   && coversInstant a t) (assignments db))
          <= sumPct (filter (competes this) (assignments db))); [| lia].
  apply sumPct_filter_le; [exact Hpct |].
  intros a _. unfold competes, coversInstant in *.
  rewrite !andb_true_iff, !Z.leb_le, Z.geb_le in *. lia.
Qed.

(** C9 as stated fails with times of day: the stored assignment ends on
    day 5 at 09:00, the candidate starts on day 5 at 15:00; they do not
    overlap, the validator accepts, both cover day 5, and the day totals
    120. *)
Lemma time_of_day_shares_a_day :
  let stored := {| _id := 1; engineerId := 1; projectId := 1;
                   allocationPercentage := 60; startDate := ofDay 1;
                   endDate := ofDay 5 + 9 * 3600000; role := "dev" |} in
  let this := {| _id := 2; engineerId := 1; projectId := 1;
                 allocationPercentage := 60;
                 startDate := ofDay 5 + 15 * 3600000;
                 endDate := ofDay 9; role := "dev" |} in
  allocationValidator (dbOf [stored]) true true this 60 = true
  /\ coversDay this 5 = true
  /\ 60 + coveringTotal (others (dbOf [stored]) this) 5 = 120.
Proof. repeat split; vm_compute; reflexivity. Qed.

(** ** Replacing a document *)


Lemma In_replaceById l doc x : In x (replaceById l doc) -> x = doc \/ In x l.
Proof.
  induction l as [| a l IH]; simpl; [tauto |].
  destruct (_id a =? _id doc); simpl; intuition.
Qed.

Lemma findById_In db id old :
  findById db id = Some old -> In old (assignments db) /\ _id old = id.
Proof.
  unfold findById. intros H. apply find_some in H. destruct H as [HI E].
  apply Z.eqb_eq in E. tauto.
Qed.

Lemma id_not_in l i :
  ~ In i (map _id l) -> forall a, In a l -> (_id a =? i) = false.
Proof.
  intros H a Ha. apply Z.eqb_neq. intros E. apply H. rewrite <- E.
  now apply in_map.
Qed.



(** ** Writes and the capacity invariant *)










(** ** An update and its own allocation *)

(** C4 at work: the assignment is alone at 100 and is lowered to 50.  The
    save-time validator leaves the assignment itself out and would accept;
    the pre-check of the handler counts it and answers with a conflict. *)
Theorem update_conflicts_with_itself :
  let db := dbOf [mkA 1 1 100 1 3] in
  let b := mkPatchBody (Some 50) None None None false in
  updateAssignment db 9 1 b
  = (mkResponse 400
       (Conflict "Engineer does not have sufficient capacity for this update"
          [(1, 100); (2, 100); (3, 100)]), db)
  /\ currentAssignments db (applyUpdates (mkA 1 1 100 1 3) b) = []
  /\ validateDoc db false true (applyUpdates (mkA 1 1 100 1 3) b) = true.
Proof. repeat split; vm_compute; reflexivity. Qed.

(** ** Mutable dates *)

Lemma getTime_extend (h extra : Mutable.Heap) r :
  (r < length h)%nat -> Mutable.getTime (h ++ extra) r = Mutable.getTime h r.
Proof. intros H. unfold Mutable.getTime. now apply nth_error_app1. Qed.

Lemma getTime_last (h : Mutable.Heap) c :
  Mutable.getTime (h ++ [c]) (length h) = Some c.
Proof.
  unfold Mutable.getTime. rewrite nth_error_app2 by lia.
  now rewrite Nat.sub_diag.
Qed.

Lemma getTime_valid (h : Mutable.Heap) r :
  (r < length h)%nat -> exists v, Mutable.getTime h r = Some v.
Proof.
  intros H. unfold Mutable.getTime.
  destruct (nth_error h r) as [v |] eqn:E; [now exists v |].
  apply nth_error_None in E. lia.
Qed.

Lemma setTime_last (h : Mutable.Heap) c v :
  Mutable.setTime (h ++ [c]) (length h) v = h ++ [v].
Proof. induction h as [| x h IH]; simpl; [reflexivity | now rewrite IH]. Qed.

(** The loop over a fresh copy follows the loop on values and touches the
    copy alone. *)
Lemma Mutable_dayLoop_run (pct : Z) (h : Mutable.Heap) (last : Mutable.Ref) (e : Z) :
  (last < length h)%nat -> Mutable.getTime h last = Some e ->
  forall (fuel : nat) (c : Z) (m m' : Timeline),
    dayLoop fuel pct e c m = Some m' ->
    exists c',
      Mutable.dayLoop fuel pct last (length h) (h ++ [c]) m
      = Some (h ++ [c'], m').
Proof.
  intros Hlt He. induction fuel as [| fuel IH]; intros c m m' H; [discriminate |].
  simpl in H. simpl Mutable.dayLoop.
  rewrite getTime_last, (getTime_extend h [c] last Hlt), He.
  destruct (c <=? e).
  - rewrite setTime_last. now apply IH.
  - injection H as <-. now exists c.
Qed.

Lemma wellFormed_extend (h extra : Mutable.Heap) d :
  Mutable.wellFormed h d -> Mutable.wellFormed (h ++ extra) d.
Proof. unfold Mutable.wellFormed. rewrite length_app. lia. Qed.

Lemma snapshot_extend (h extra : Mutable.Heap) d :
  Mutable.wellFormed h d ->
  Mutable.snapshot (h ++ extra) d = Mutable.snapshot h d.
Proof.
  intros [Hs He]. unfold Mutable.snapshot.
  now rewrite !getTime_extend by assumption.
Qed.

Lemma snapshots_extend (h extra : Mutable.Heap) l :
  Forall (Mutable.wellFormed h) l ->
  Mutable.snapshots (h ++ extra) l = Mutable.snapshots h l.
Proof.
  intros H. induction H as [| d l Hd H IH]; simpl; [reflexivity |].
  rewrite (snapshot_extend h extra d Hd), IH. reflexivity.
Qed.

Lemma Mutable_forEach_run (l : list Mutable.Doc) :
  forall (h : Mutable.Heap) (m : Timeline),
    Forall (Mutable.wellFormed h) l ->
    exists extra,
      Mutable.forEachAssignment l h m
      = Some (h ++ extra, timelineOf (Mutable.snapshots h l) m).
Proof.
  induction l as [| d rest IH]; intros h m Hwf.
  - exists []. simpl. now rewrite app_nil_r.
  - inversion Hwf as [| ? ? Hd Hrest]; subst.
    destruct (getTime_valid h _ (proj1 Hd)) as [s Hs].
    destruct (getTime_valid h _ (proj2 Hd)) as [e He].
    cbn [Mutable.forEachAssignment Mutable.snapshots].
    unfold Mutable.snapshot, Mutable.budget, Mutable.newDate. rewrite Hs, He.
    set (a := {| _id := Mutable.doc_id d;
                 engineerId := Mutable.doc_engineerId d;
                 projectId := Mutable.doc_projectId d;
                 allocationPercentage := Mutable.doc_allocationPercentage d;
                 startDate := s; endDate := e; role := Mutable.doc_role d |}).
    pose proof (dayLoop_assignment a m) as Hrun.
    destruct (Mutable_dayLoop_run (allocationPercentage a) h
                (Mutable.doc_endDate d) (endDate a) (proj2 Hd) He
                (loopBudget a) (startDate a) m _ Hrun)
      as [c' Hc'].
    change (S (Z.to_nat ((e - s) / MS_PER_DAY + 1))) with (loopBudget a).
    change (Mutable.doc_allocationPercentage d) with (allocationPercentage a).
    change s with (startDate a) at 1.
    rewrite Hc'.
    assert (Hrest' : Forall (Mutable.wellFormed (h ++ [c'])) rest).
    { eapply Forall_impl; [| exact Hrest]. intros x. apply wellFormed_extend. }
    destruct (IH (h ++ [c'])
                (fold_left (bump (allocationPercentage a)) (loopDays a) m) Hrest')
      as [extra Hextra].
    exists (c' :: extra). rewrite Hextra.
    rewrite (snapshots_extend h [c'] rest Hrest), <- app_assoc. reflexivity.
Qed.

Lemma Mutable_evaluate_run (h : Mutable.Heap) (found : list Mutable.Doc) :
  Forall (Mutable.wellFormed h) found ->
  exists extra,
    Mutable.evaluate h found
    = Some (verdictOf (timelineOf (Mutable.snapshots h found) []), h ++ extra).
Proof.
  intros Hwf. destruct (Mutable_forEach_run found h [] Hwf) as [extra Hrun].
  exists extra. unfold Mutable.evaluate. now rewrite Hrun.
Qed.

(** C8: the evaluation, run on documents whose dates are objects in a
    heap, returns the verdict of their values, changes no date object that
    existed before it (the documents read the same afterwards), and run
    again on the same documents returns the same verdict. *)
Theorem evaluation_is_pure (h : Mutable.Heap) (found : list Mutable.Doc) :
  Forall (Mutable.wellFormed h) found ->
  exists v extra,
    Mutable.evaluate h found = Some (v, h ++ extra)
    /\ forEachAssignment (Mutable.snapshots h found) [] = Some (allocations v)
    /\ v = verdictOf (allocations v)
    /\ Mutable.snapshots (h ++ extra) found = Mutable.snapshots h found
    /\ exists extra',
         Mutable.evaluate (h ++ extra) found = Some (v, (h ++ extra) ++ extra').
Proof.
  intros Hwf. destruct (Mutable_evaluate_run h found Hwf) as [extra Hrun].
  exists (verdictOf (timelineOf (Mutable.snapshots h found) [])), extra.
  assert (Hwf' : Forall (Mutable.wellFormed (h ++ extra)) found).
  { eapply Forall_impl; [| exact Hwf]. intros x. apply wellFormed_extend. }
  repeat split.
  - exact Hrun.
  - apply forEachAssignment_run.
  - now apply snapshots_extend.
  - destruct (Mutable_evaluate_run (h ++ extra) found Hwf') as [extra' Hrun'].
    exists extra'. rewrite Hrun'.
    now rewrite (snapshots_extend h extra found Hwf).
Qed.

Lemma evaluation_is_pure_witness :
  let h := [ofDay 1; ofDay 3; ofDay 2; ofDay 4] in
  let found := [Mutable.mkDoc 1 1 1 60 0%nat 1%nat "dev";
                Mutable.mkDoc 2 1 1 30 2%nat 3%nat "dev"] in
  exists v extra,
    Mutable.evaluate h found = Some (v, h ++ extra)
    /\ forEachAssignment (Mutable.snapshots h found) [] = Some (allocations v)
    /\ v = verdictOf (allocations v)
    /\ Mutable.snapshots (h ++ extra) found = Mutable.snapshots h found
    /\ exists extra',
         Mutable.evaluate (h ++ extra) found = Some (v, (h ++ extra) ++ extra').
Proof.
  intros h found. apply (evaluation_is_pure h found).
  repeat constructor; simpl; lia.
Defined.

(** The documents of a query, allocated afresh, are well formed and read
    as the assignments found. *)
Lemma hydrate_run (l : list Assignment) :
  forall (h : Mutable.Heap),
    exists extra docs,
      Mutable.hydrate h l = (h ++ extra, docs)
      /\ Forall (Mutable.wellFormed (h ++ extra)) docs
      /\ Mutable.snapshots (h ++ extra) docs = l.
Proof.
  induction l as [| a rest IH]; intros h.
  - exists [], []. simpl. rewrite app_nil_r. repeat split. constructor.
  - cbn [Mutable.hydrate]. unfold Mutable.newDate.
    destruct (IH ((h ++ [startDate a]) ++ [endDate a]))
      as (extra & docs & E & Hwf & Hsn).
    rewrite E. exists ([startDate a] ++ [endDate a] ++ extra). eexists.
    replace (h ++ [startDate a] ++ [endDate a] ++ extra)
      with (((h ++ [startDate a]) ++ [endDate a]) ++ extra)
      by now rewrite <- !app_assoc.
    split; [reflexivity |].
    assert (Hd : Mutable.wellFormed ((h ++ [startDate a]) ++ [endDate a])
                   {| Mutable.doc_id := _id a;
                      Mutable.doc_engineerId := engineerId a;
                      Mutable.doc_projectId := projectId a;
                      Mutable.doc_allocationPercentage := allocationPercentage a;
                      Mutable.doc_startDate := length h;
                      Mutable.doc_endDate := length (h ++ [startDate a]);
                      Mutable.doc_role := role a |}).
    { unfold Mutable.wellFormed. simpl. rewrite !length_app. simpl. lia. }
    split.
    + constructor; [now apply wellFormed_extend | exact Hwf].
    + cbn [Mutable.snapshots]. rewrite (snapshot_extend _ extra _ Hd).
      unfold Mutable.snapshot. cbn [Mutable.doc_startDate Mutable.doc_endDate].
      rewrite getTime_last.
      rewrite (getTime_extend (h ++ [startDate a]) [endDate a] (length h))
        by (rewrite length_app; simpl; lia).
      rewrite getTime_last. rewrite Hsn. destruct a. reflexivity.
Qed.

(** On mutable dates [checkAvailability] returns what it returns on
    values, and keeps the heap it was given as a prefix. *)
Lemma Mutable_checkAvailability_run db eng windowStart windowEnd (h : Mutable.Heap) :
  exists v extra,
    Mutable.checkAvailability db eng windowStart windowEnd h = Some (v, h ++ extra)
    /\ checkAvailability db eng windowStart windowEnd = Some v.
Proof.
  unfold Mutable.checkAvailability.
  destruct (hydrate_run (findOverlapping db eng windowStart windowEnd) h)
    as (extra & docs & E & Hwf & Hsn).
  rewrite E.
  destruct (Mutable_evaluate_run (h ++ extra) docs Hwf) as (extra' & Hev).
  rewrite Hev, Hsn, <- app_assoc, checkAvailability_run. eauto.
Qed.

(** ** The order of the query result *)




(** ** The scenarios of the specification, run through the handlers *)

(** Scenario A: 60 stored on days 1 to 10, 30 asked for days 5 to 15.  The
    create is accepted. *)
Example scenario_A :
  let db := dbOf [mkA 1 1 60 1 10] in
  let out := createAssignment db 9 (mkCreateBody 1 1 30 (ofDay 5) (ofDay 15) "dev") in
  status (fst out) = 201
  /\ assignments (snd out) = [mkA 1 1 60 1 10; mkA 2 1 30 5 15]
  /\ dayTotal (snd out) 1 5 = 90
  /\ dayTotal (snd out) 1 11 = 30.
Proof. repeat split; vm_compute; reflexivity. Qed.

(** Scenario B: 80 stored on days 1 to 10, 30 asked for days 5 to 8.  The
    availability check passes (80 is below 100); the save-time validator
    rejects (110), and the handler answers 500. *)
Example scenario_B :
  let db := dbOf [mkA 1 1 80 1 10] in
  checkAvailability db 1 (ofDay 5) (ofDay 8)
  = Some {| isAvailable := true;
            allocations := [(1, 80); (2, 80); (3, 80); (4, 80); (5, 80);
                            (6, 80); (7, 80); (8, 80); (9, 80); (10, 80)] |}
  /\ createAssignment db 9 (mkCreateBody 1 1 30 (ofDay 5) (ofDay 8) "dev")
     = (mkResponse 500 (Message "Error creating assignment"), db).
Proof. split; vm_compute; reflexivity. Qed.

(** * The handlers around the allocator *)

(** ** What a handler did, read off its answer *)

Lemma save_inv db isNew isModified doc db' :
  save db isNew isModified doc = Some db' ->
  validateDoc db isNew isModified doc = true
  /\ db' = (if isNew
            then {| users := users db; projects := projects db;
                    assignments := assignments db ++ [doc];
                    nextId := nextId db + 1 |}
            else {| users := users db; projects := projects db;
                    assignments := replaceById (assignments db) doc;
                    nextId := nextId db |}).
Proof.
  unfold save. destruct (validateDoc db isNew isModified doc); [| discriminate].
  intros [= <-]. split; reflexivity.
Qed.

Ltac unchanged :=
  let H := fresh in
  intros H; injection H as <- <-; left;
  split; [reflexivity | split; [simpl; lia | intros ?; simpl; discriminate]].

Lemma createAssignment_inv db reqUser b resp db' :
  createAssignment db reqUser b = (resp, db') ->
  (db' = db /\ status resp <> 201 /\ forall a, body resp <> Document a)
  \/ (resp = mkResponse 201 (Document (newAssignment db b))
      /\ validateAssignment b = true
      /\ (exists p, findManagedProject db (cb_projectId b) reqUser = Some p)
      /\ (exists e, findEngineer db (cb_engineerId b) = Some e)
      /\ (exists v, checkAvailability db (cb_engineerId b) (cb_startDate b)
                      (cb_endDate b) = Some v /\ isAvailable v = true)
      /\ save db true true (newAssignment db b) = Some db').
Proof.
  unfold createAssignment.
  destruct (validateAssignment b); simpl negb; cbv iota; [| unchanged].
  destruct (findManagedProject db (cb_projectId b) reqUser) as [p |] eqn:P;
    [| unchanged].
  destruct (findEngineer db (cb_engineerId b)) as [e |] eqn:E; [| unchanged].
  destruct (checkAvailability db (cb_engineerId b) (cb_startDate b) (cb_endDate b))
    as [v |] eqn:C; [| unchanged].
  destruct (isAvailable v) eqn:Hv; simpl negb; cbv iota; [| unchanged].
  destruct (save db true true (newAssignment db b)) as [db1 |] eqn:S;
    [| unchanged].
  intros H. injection H as <- <-. right. repeat split; eauto.
Qed.

Lemma updateAssignment_inv db reqUser id b resp db' :
  updateAssignment db reqUser id b = (resp, db') ->
  (db' = db /\ status resp <> 200 /\ forall a, body resp <> Document a)
  \/ (exists old p,
        pb_otherKeys b = false
        /\ findById db id = Some old
        /\ findProject db (projectId old) = Some p
        /\ managerId p = reqUser
        /\ (truthy (pb_allocationPercentage b) = true ->
            exists v, checkAvailability db (engineerId old) (startDate old)
                        (endDate old) = Some v /\ isAvailable v = true)
        /\ save db false (isModifiedPercentage old (applyUpdates old b))
             (applyUpdates old b) = Some db'
        /\ resp = mkResponse 200 (Document (applyUpdates old b))).
Proof.
  unfold updateAssignment.
  destruct (pb_otherKeys b); [unchanged |].
  destruct (findById db id) as [old |] eqn:F; [| unchanged].
  destruct (findProject db (projectId old)) as [p |] eqn:P; [| unchanged].
  destruct (Z.eqb_spec (managerId p) reqUser) as [Hm | Hm]; simpl negb; cbv iota;
    [| unchanged].
  destruct (truthy (pb_allocationPercentage b)) eqn:T.
  - destruct (checkAvailability db (engineerId old) (startDate old) (endDate old))
      as [v |] eqn:C; [| unchanged].
    destruct (isAvailable v) eqn:Hv; simpl negb; cbv iota; [| unchanged].
    destruct (save db false (isModifiedPercentage old (applyUpdates old b))
                (applyUpdates old b)) as [db1 |] eqn:S; [| unchanged].
    intros H. injection H as <- <-. right. exists old, p.
    repeat split; eauto.
  - simpl negb. cbv iota.
    destruct (save db false (isModifiedPercentage old (applyUpdates old b))
                (applyUpdates old b)) as [db1 |] eqn:S; [| unchanged].
    intros H. injection H as <- <-. right. exists old, p.
    repeat split; auto. discriminate.
Qed.

Lemma deleteAssignment_inv db reqUser id resp db' :
  deleteAssignment db reqUser id = (resp, db') ->
  (db' = db /\ status resp <> 200 /\ forall a, body resp <> Document a)
  \/ (exists old p,
        findById db id = Some old
        /\ findProject db (projectId old) = Some p
        /\ managerId p = reqUser
        /\ resp = mkResponse 200 (Message "Assignment deleted successfully")
        /\ db' = {| users := users db; projects := projects db;
                    assignments := removeById (assignments db) id;
                    nextId := nextId db |}).
Proof.
  unfold deleteAssignment.
  destruct (findById db id) as [old |] eqn:F; [| unchanged].
  destruct (findProject db (projectId old)) as [p |] eqn:P; [| unchanged].
  destruct (Z.eqb_spec (managerId p) reqUser) as [Hm | Hm]; simpl negb; cbv iota;
    [| unchanged].
  intros H. injection H as <- <-. right. exists old, p.
  destruct (findById_In db id old F) as [_ ->]. repeat split; auto.
Qed.

(** ** Creating and updating: what changes and what does not *)

(** X1: a create either answers 201 and appends exactly the document built
    from the request under a new id, or answers an error and leaves the
    database as it was; users, projects and the stored assignments are
    never touched. *)
Theorem create_effect (db : Db) (reqUser : Z) (b : CreateBody) :
  let out := createAssignment db reqUser b in
  (fst out = mkResponse 201 (Document (newAssignment db b))
   /\ users (snd out) = users db
   /\ projects (snd out) = projects db
   /\ assignments (snd out) = assignments db ++ [newAssignment db b]
   /\ nextId (snd out) = nextId db + 1)
  \/ (status (fst out) <> 201 /\ snd out = db).
Proof.
  intros out. subst out.
  destruct (createAssignment db reqUser b) as [resp db'] eqn:E.
  apply createAssignment_inv in E. simpl.
  destruct E as [(-> & Hs & _) | (-> & _ & _ & _ & _ & S)].
  - right. split; [exact Hs | reflexivity].
  - left. apply save_inv in S. destruct S as [_ ->]. simpl. repeat split.
Qed.

Lemma replaceById_identity l old doc :
  find (fun a => _id a =? _id doc) l = Some old ->
  identity doc = identity old ->
  map identity (replaceById l doc) = map identity l.
Proof.
  intros F Hi. induction l as [| a l IH]; simpl in *; [reflexivity |].
  destruct (_id a =? _id doc).
  - injection F as ->. simpl. now rewrite Hi.
  - simpl. now rewrite IH.
Qed.

Lemma replaceById_keeps l doc a :
  In a l -> _id a <> _id doc -> In a (replaceById l doc).
Proof.
  intros Hin Hne. induction l as [| x l IH]; simpl in *; [exact Hin |].
  destruct (Z.eqb_spec (_id x) (_id doc)) as [E | N].
  - destruct Hin as [-> | Hin]; [contradiction | now right].
  - destruct Hin as [-> | Hin]; [now left | right; now apply IH].
Qed.

(** X2: an update changes one document at most.  Whatever the answer, every
    stored document keeps its id, its engineer and its project, no document
    is added or removed, a document with another id is left as it was, and
    an answer other than 200 leaves the database unchanged. *)
Theorem update_effect (db : Db) (reqUser id : Z) (b : PatchBody) :
  let out := updateAssignment db reqUser id b in
  users (snd out) = users db
  /\ projects (snd out) = projects db
  /\ nextId (snd out) = nextId db
  /\ map identity (assignments (snd out)) = map identity (assignments db)
  /\ (forall a, In a (assignments db) -> _id a <> id ->
                In a (assignments (snd out)))
  /\ (status (fst out) <> 200 -> snd out = db).
Proof.
  intros out. subst out.
  destruct (updateAssignment db reqUser id b) as [resp db'] eqn:E.
  apply updateAssignment_inv in E. simpl.
  destruct E as [(-> & Hs & _) | (old & p & _ & F & _ & _ & _ & S & ->)].
  - repeat split; auto.
  - apply save_inv in S. destruct S as [_ ->]. simpl.
    pose proof (findById_In db id old F) as [_ Hid].
    repeat split.
    + apply (replaceById_identity _ old); [| reflexivity].
      simpl. rewrite Hid. exact F.
    + intros a Ha Hne. apply replaceById_keeps; [exact Ha |].
      simpl. now rewrite Hid.
    + intros H. now contradiction H.
Qed.

(** ** The schema as an invariant of the store *)

Lemma engineerIdValidator_users db db' value :
  users db' = users db ->
  engineerIdValidator db' value = engineerIdValidator db value.
Proof.
  intros H. unfold engineerIdValidator, findUserById. now rewrite H.
Qed.

Lemma documentOk_users db db' a :
  users db' = users db -> documentOk db a -> documentOk db' a.
Proof.
  intros H (H1 & H2 & H3 & H4). repeat split; try tauto.
  now rewrite (engineerIdValidator_users db db' _ H).
Qed.

Lemma validateDoc_documentOk db isNew isModified doc :
  validateDoc db isNew isModified doc = true -> documentOk db doc.
Proof.
  unfold validateDoc, endDateValidator, documentOk.
  rewrite !andb_true_iff, !Z.leb_le, Z.gtb_lt. tauto.
Qed.

(** X3: whatever is written, the store holds only documents that pass the
    schema: a percentage from 0 to 100, an end date after the start date,
    a role that is not empty, and an engineer who exists with that role. *)
Theorem writes_keep_schema
    (db : Db) (reqUser : Z) (w : Write) (resp : Response) (db' : Db) :
  Forall (documentOk db) (assignments db) ->
  handleWrite db reqUser w = (resp, db') ->
  Forall (documentOk db') (assignments db').
Proof.
  intros Hok Hw. destruct w as [b | id b]; simpl in Hw.
  - apply createAssignment_inv in Hw.
    destruct Hw as [(-> & _) | (_ & _ & _ & _ & _ & S)]; [exact Hok |].
    apply save_inv in S. destruct S as [V ->]. simpl.
    apply validateDoc_documentOk in V.
    apply Forall_app. split; [| constructor; [| constructor]].
    + eapply Forall_impl; [| exact Hok]. intros a. now apply documentOk_users.
    + now apply (documentOk_users db).
  - apply updateAssignment_inv in Hw.
    destruct Hw as [(-> & _) | (old & p & _ & _ & _ & _ & _ & S & _)];
      [exact Hok |].
    apply save_inv in S. destruct S as [V ->]. simpl.
    apply validateDoc_documentOk in V.
    apply Forall_forall. intros x Hx. apply In_replaceById in Hx.
    rewrite Forall_forall in Hok.
    destruct Hx as [-> | Hx]; apply (documentOk_users db); auto.
Qed.

Lemma writes_keep_schema_witness :
  let db := dbOf [mkA 1 1 60 1 10] in
  let w := Patch 1 (mkPatchBody (Some 80) None (Some (ofDay 12)) None false) in
  status (fst (handleWrite db 9 w)) = 200
  /\ Forall (documentOk (snd (handleWrite db 9 w)))
       (assignments (snd (handleWrite db 9 w))).
Proof.
  intros db w. split; [vm_compute; reflexivity |].
  apply (writes_keep_schema db 9 w (fst (handleWrite db 9 w))).
  - repeat constructor; vm_compute; try reflexivity; discriminate.
  - vm_compute. reflexivity.
Defined.

(** ** Who may write *)

Lemma find_In (A : Type) (f : A -> bool) (l : list A) (x : A) :
  find f l = Some x -> In x l /\ f x = true.
Proof. apply find_some. Qed.

(** X4: only the manager of the project can create or change one of its
    assignments: when no project of that id is managed by the user of the
    request, the database is left as it was. *)
Theorem unauthorized_write_changes_nothing
    (db : Db) (reqUser : Z) (w : Write) (resp : Response) (db' : Db) :
  (forall p, In p (projects db) ->
             writeProject db w = Some (projectKey p) -> managerId p <> reqUser) ->
  handleWrite db reqUser w = (resp, db') ->
  db' = db.
Proof.
  intros Hno Hw. destruct w as [b | id b]; simpl in Hw, Hno.
  - apply createAssignment_inv in Hw.
    destruct Hw as [(-> & _) | (_ & _ & (p & P) & _)]; [reflexivity |].
    unfold findManagedProject in P. apply find_In in P. destruct P as [Hin Hp].
    apply andb_true_iff in Hp. destruct Hp as [Hk Hm].
    apply Z.eqb_eq in Hk, Hm. exfalso. apply (Hno p Hin); [now rewrite Hk | exact Hm].
  - apply updateAssignment_inv in Hw.
    destruct Hw as [(-> & _) | (old & p & _ & F & P & Hm & _)]; [reflexivity |].
    rewrite F in Hno. unfold findProject in P. apply find_In in P.
    destruct P as [Hin Hk]. apply Z.eqb_eq in Hk.
    exfalso. apply (Hno p Hin); [now rewrite Hk | exact Hm].
Qed.

Lemma unauthorized_write_changes_nothing_witness :
  let db := dbOf [mkA 1 1 60 1 10] in
  snd (handleWrite db 7 (Patch 1 (mkPatchBody (Some 10) None None None false)))
  = db.
Proof.
  intros db.
  apply (unauthorized_write_changes_nothing db 7
           (Patch 1 (mkPatchBody (Some 10) None None None false))
           (fst (handleWrite db 7
                   (Patch 1 (mkPatchBody (Some 10) None None None false))))).
  - intros p Hin _. simpl in Hin. destruct Hin as [<- | []]. simpl. lia.
  - vm_compute. reflexivity.
Defined.

(** ** Reading back what was written *)

Lemma find_app_last (A : Type) (f : A -> bool) (l : list A) (x : A) :
  (forall y, In y l -> f y = false) -> f x = true -> find f (l ++ [x]) = Some x.
Proof.
  intros Hl Hx. induction l as [| y l IH]; simpl.
  - now rewrite Hx.
  - rewrite (Hl y) by now left. apply IH. intros z Hz. apply Hl. now right.
Qed.

Lemma find_replaceById l doc old :
  find (fun a => _id a =? _id doc) l = Some old ->
  find (fun a => _id a =? _id doc) (replaceById l doc) = Some doc.
Proof.
  induction l as [| a l IH]; simpl; [discriminate |].
  destruct (_id a =? _id doc) eqn:E; simpl.
  - now rewrite Z.eqb_refl.
  - rewrite E. exact IH.
Qed.

(** X5: the document a create or an update answers with is the document
    [GET /:id] returns afterwards (the new id being unused, as ids are). *)
Theorem written_document_is_found
    (db : Db) (reqUser : Z) (w : Write) (s : Z) (a : Assignment) (db' : Db) :
  ~ In (nextId db) (map _id (assignments db)) ->
  handleWrite db reqUser w = (mkResponse s (Document a), db') ->
  getAssignment db' (_id a) = mkResponse 200 (Document a).
Proof.
  intros Hfresh Hw. unfold getAssignment, findById.
  destruct w as [b | id b]; simpl in Hw.
  - apply createAssignment_inv in Hw.
    destruct Hw as [(_ & _ & Hb) | (E & _ & _ & _ & _ & S)];
      [now contradiction (Hb a) |].
    injection E as _ ->. apply save_inv in S. destruct S as [_ ->]. simpl.
    rewrite find_app_last; [reflexivity | | apply Z.eqb_refl].
    intros y Hy. now apply id_not_in with (l := assignments db).
  - apply updateAssignment_inv in Hw.
    destruct Hw as [(_ & _ & Hb) | (old & p & _ & F & _ & _ & _ & S & E)];
      [now contradiction (Hb a) |].
    injection E as _ ->. apply save_inv in S. destruct S as [_ ->].
    cbn [assignments].
    pose proof (findById_In db id old F) as [_ Hid].
    rewrite (find_replaceById _ _ old); [reflexivity |].
    simpl. rewrite Hid. exact F.
Qed.

Lemma written_document_is_found_witness :
  let db := dbOf [mkA 1 1 60 1 10] in
  let w := Post (mkCreateBody 1 1 30 (ofDay 5) (ofDay 15) "dev") in
  getAssignment (snd (handleWrite db 9 w)) (_id (mkA 2 1 30 5 15))
  = mkResponse 200 (Document (mkA 2 1 30 5 15)).
Proof.
  intros db w.
  apply (written_document_is_found db 9 w 201 (mkA 2 1 30 5 15)).
  - vm_compute. intros [H | []]. discriminate H.
  - vm_compute. reflexivity.
Defined.

(** ** The availability check and the stored percentages *)

Lemma sumPct_nonneg l :
  Forall (fun a => 0 <= allocationPercentage a) l -> 0 <= sumPct l.
Proof. induction 1 as [| a l Ha _ IH]; simpl; lia. Qed.

Lemma filter_true (l : list Assignment) : filter (fun _ => true) l = l.
Proof. induction l as [| a l IH]; simpl; [reflexivity | now rewrite IH]. Qed.

Lemma sumPct_filter_total f l :
  Forall (fun a => 0 <= allocationPercentage a) l ->
  0 <= sumPct (filter f l) <= sumPct l.
Proof.
  intros H. split.
  - apply sumPct_nonneg. now apply Forall_filter.
  - rewrite <- (filter_true l) at 2. apply sumPct_filter_le; [exact H |].
    reflexivity.
Qed.

Lemma sumPct_filter_member f l a :
  Forall (fun a => 0 <= allocationPercentage a) l ->
  In a l -> f a = true -> allocationPercentage a <= sumPct (filter f l).
Proof.
  intros H. induction H as [| x l Hx H IH]; intros Hin Hf; [destruct Hin |].
  rewrite sumPct_filter_cons. unfold share.
  pose proof (sumPct_nonneg _ (Forall_filter _ _ f _ H)) as Hnn.
  destruct Hin as [-> | Hin].
  - rewrite Hf. lia.
  - specialize (IH Hin Hf). destruct (f x); lia.
Qed.

Lemma nonneg_found db eng windowStart windowEnd :
  Forall (fun a => 0 <= allocationPercentage a) (assignments db) ->
  Forall (fun a => 0 <= allocationPercentage a)
    (findOverlapping db eng windowStart windowEnd).
Proof. intros H. now apply Forall_filter. Qed.

(** Every entry lies between zero and the sum of all found percentages. *)
Lemma entry_bounds db eng windowStart windowEnd k t :
  Forall (fun a => 0 <= allocationPercentage a) (assignments db) ->
  map_get (timelineOf (findOverlapping db eng windowStart windowEnd) []) k = Some t ->
  0 <= t <= sumPct (findOverlapping db eng windowStart windowEnd).
Proof.
  intros Hp. rewrite map_get_timelineOf.
  destruct (existsb _ _); [| discriminate]. intros [= <-].
  apply sumPct_filter_total. now apply nonneg_found.
Qed.

Lemma competes_fresh db b :
  ~ In (nextId db) (map _id (assignments db)) ->
  currentAssignments db (newAssignment db b)
  = findOverlapping db (cb_engineerId b) (cb_startDate b) (cb_endDate b).
Proof.
  intros Hfresh. unfold currentAssignments, findOverlapping.
  apply filter_ext_in. intros a Ha. unfold competes, overlapsWindow. simpl.
  rewrite (id_not_in _ _ Hfresh a Ha). simpl. now rewrite andb_true_r.
Qed.

(** X7: an engineer available over a window is available over every window
    inside it. *)
Theorem narrower_window_available
    (db : Db) (eng : Z) (windowStart windowEnd wideStart wideEnd : Date) :
  Forall (fun a => 0 <= allocationPercentage a) (assignments db) ->
  wideStart <= windowStart -> windowEnd <= wideEnd ->
  (exists v, checkAvailability db eng wideStart wideEnd = Some v
             /\ isAvailable v = true) ->
  exists v, checkAvailability db eng windowStart windowEnd = Some v
            /\ isAvailable v = true.
Proof.
  intros Hp Hs He (w & Hw & Aw). rewrite checkAvailability_run in *.
  injection Hw as <-. eexists. split; [reflexivity |].
  apply isAvailable_verdictOf; [apply NoDup_keys_timelineOf |].
  pose proof (proj1 (isAvailable_verdictOf _ (NoDup_keys_timelineOf _)) Aw) as Hwide.
  intros k t. rewrite map_get_timelineOf.
  destruct (existsb _ _) eqn:Ex; [| discriminate]. intros [= <-].
  assert (Hsub : forall a, In a (assignments db) ->
            overlapsWindow eng windowStart windowEnd a = true ->
            overlapsWindow eng wideStart wideEnd a = true).
  { intros a _. unfold overlapsWindow.
    rewrite !andb_true_iff, !Z.leb_le, !Z.geb_le, !Z.eqb_eq. lia. }
  apply existsb_exists in Ex. destruct Ex as (a & Ha & Hk).
  unfold findOverlapping in Ha. apply filter_In in Ha. destruct Ha as [Ha Ho].
  assert (Hex : existsb (fun a => visitsDay a k)
                  (findOverlapping db eng wideStart wideEnd) = true).
  { apply existsb_exists. exists a. split; [| exact Hk].
    apply filter_In. split; [exact Ha | now apply Hsub]. }
  specialize (Hwide k (visitedTotal (findOverlapping db eng wideStart wideEnd) k)).
  rewrite map_get_timelineOf, Hex in Hwide. specialize (Hwide eq_refl).
  assert (visitedTotal (findOverlapping db eng windowStart windowEnd) k
          <= visitedTotal (findOverlapping db eng wideStart wideEnd) k); [| lia].
  unfold visitedTotal, findOverlapping. rewrite !filter_filter_and.
  apply sumPct_filter_le; [exact Hp |].
  intros x Hx. rewrite !andb_true_iff. intros [H1 H2]. split; [| exact H2].
  now apply Hsub.
Qed.

Lemma narrower_window_available_witness :
  exists v,
    checkAvailability (dbOf [mkA 1 1 60 1 10; mkA 2 1 30 8 20]) 1 (ofDay 9) (ofDay 9)
    = Some v
    /\ isAvailable v = true.
Proof.
  apply (narrower_window_available (dbOf [mkA 1 1 60 1 10; mkA 2 1 30 8 20]) 1
           (ofDay 9) (ofDay 9) (ofDay 1) (ofDay 30)).
  - repeat constructor; vm_compute; discriminate.
  - vm_compute. discriminate.
  - vm_compute. discriminate.
  - eexists. split; vm_compute; reflexivity.
Defined.

(** A store used in the examples: 60 on days 1 to 10 and 40 on days 5 to
    30 for engineer 1, who stands at 100 from day 5 to day 10. *)
Lemma example_store_ok : storeOk (dbOf [mkA 1 1 60 1 10; mkA 2 1 40 5 30]).
Proof.
  constructor; simpl.
  - repeat constructor; vm_compute; reflexivity.
  - repeat constructor; vm_compute; discriminate.
  - repeat constructor; simpl; intuition discriminate.
  - repeat constructor; vm_compute; reflexivity.
  - intros eng k. rewrite dayTotal_filter. simpl assignments.
    rewrite !sumPct_filter_cons. unfold share, coversDay, mkA.
    cbn [startDate endDate engineerId allocationPercentage filter].
    rewrite !dateKey_ofDay. unfold sumPct. cbn [fold_right].
    destruct (1 =? eng); simpl; [| lia].
    destruct (Z.leb_spec 1 k), (Z.leb_spec k 10), (Z.leb_spec 5 k),
      (Z.leb_spec k 30); simpl; lia.
Qed.

(** ** Engineers do not interfere *)

Lemma filter_replaceById (f : Assignment -> bool) l old doc :
  find (fun a => _id a =? _id doc) l = Some old ->
  f old = false -> f doc = false ->
  filter f (replaceById l doc) = filter f l.
Proof.
  intros F Ho Hd. induction l as [| a l IH]; simpl in *; [reflexivity |].
  destruct (_id a =? _id doc).
  - injection F as ->. simpl. now rewrite Ho, Hd.
  - simpl. now rewrite IH.
Qed.

(** X9: a create or an update for one engineer leaves the availability of
    every other engineer as it was. *)
Theorem other_engineer_unaffected
    (db : Db) (reqUser : Z) (w : Write) (resp : Response) (db' : Db)
    (eng : Z) (windowStart windowEnd : Date) :
  writeEngineer db w <> Some eng ->
  handleWrite db reqUser w = (resp, db') ->
  checkAvailability db' eng windowStart windowEnd
  = checkAvailability db eng windowStart windowEnd.
Proof.
  intros Hne Hw. unfold checkAvailability, findOverlapping.
  assert (E : filter (overlapsWindow eng windowStart windowEnd) (assignments db')
              = filter (overlapsWindow eng windowStart windowEnd) (assignments db));
    [| now rewrite E].
  destruct w as [b | id b]; simpl in Hw, Hne.
  - apply createAssignment_inv in Hw.
    destruct Hw as [(-> & _) | (_ & _ & _ & _ & _ & S)]; [reflexivity |].
    apply save_inv in S. destruct S as [_ ->]. simpl.
    rewrite filter_app. simpl. unfold overlapsWindow at 2. simpl.
    destruct (Z.eqb_spec (cb_engineerId b) eng) as [E | N]; [congruence |].
    simpl. apply app_nil_r.
  - apply updateAssignment_inv in Hw.
    destruct Hw as [(-> & _) | (old & p & _ & F & _ & _ & _ & S & _)];
      [reflexivity |].
    apply save_inv in S. destruct S as [_ ->]. cbn [assignments].
    rewrite F in Hne.
    pose proof (findById_In db id old F) as [_ Hid].
    assert (N : (engineerId old =? eng) = false).
    { apply Z.eqb_neq. congruence. }
    apply (filter_replaceById _ _ old).
    + simpl. rewrite Hid. exact F.
    + unfold overlapsWindow. now rewrite N.
    + unfold overlapsWindow. simpl. now rewrite N.
Qed.

Lemma other_engineer_unaffected_witness :
  let db := dbOf [mkA 1 1 60 1 10; mkA 2 2 90 1 10] in
  let w := Patch 1 (mkPatchBody (Some 10) (Some (ofDay 3)) None None false) in
  status (fst (handleWrite db 9 w)) = 200
  /\ checkAvailability (snd (handleWrite db 9 w)) 2 (ofDay 1) (ofDay 10)
     = checkAvailability db 2 (ofDay 1) (ofDay 10).
Proof.
  intros db w. split; [vm_compute; reflexivity |].
  apply (other_engineer_unaffected db 9 w (fst (handleWrite db 9 w))).
  - vm_compute. discriminate.
  - vm_compute. reflexivity.
Defined.

(** ** A fully allocated assignment *)

Lemma visitsDay_first a :
  startDate a <= endDate a -> visitsDay a (dateKey (startDate a)) = true.
Proof.
  intros H. unfold visitsDay, dayCount.
  rewrite (proj2 (Z.leb_le _ _) H), Z.leb_refl. simpl. apply Z.ltb_lt.
  pose proof (Z.div_pos (endDate a - startDate a) MS_PER_DAY
                ltac:(lia) MS_PER_DAY_pos). lia.
Qed.

(** X10: an assignment stored at 100 cannot be changed through an update that
    names a percentage other than 0: the availability check counts the
    assignment itself, finds its days at 100 or more, and the update is
    turned down whatever it asks for. *)
Theorem full_assignment_is_frozen
    (db : Db) (reqUser id : Z) (b : PatchBody) (old : Assignment)
    (resp : Response) (db' : Db) :
  Forall (fun a => 0 <= allocationPercentage a) (assignments db) ->
  findById db id = Some old ->
  100 <= allocationPercentage old ->
  startDate old <= endDate old ->
  truthy (pb_allocationPercentage b) = true ->
  updateAssignment db reqUser id b = (resp, db') ->
  db' = db /\ status resp <> 200.
Proof.
  intros Hp F Hfull Hrange T Hw. apply updateAssignment_inv in Hw.
  destruct Hw as [(-> & Hs & _) | (old' & p & _ & F' & _ & _ & Hav & _)];
    [now split |].
  rewrite F in F'. injection F' as <-.
  destruct (Hav T) as (v & Hv & Av). rewrite checkAvailability_run in Hv.
  injection Hv as <-. exfalso.
  pose proof (proj1 (isAvailable_verdictOf _ (NoDup_keys_timelineOf _)) Av
                (dateKey (startDate old))) as Hlt.
  rewrite map_get_timelineOf in Hlt.
  pose proof (findById_In db id old F) as [Hin _].
  assert (Hfound : In old (findOverlapping db (engineerId old) (startDate old)
                             (endDate old))).
  { apply filter_In. split; [exact Hin |]. unfold overlapsWindow.
    rewrite Z.eqb_refl. simpl. apply andb_true_iff. split.
    - now apply Z.leb_le.
    - apply Z.geb_le. exact Hrange. }
  assert (Hex : existsb (fun a => visitsDay a (dateKey (startDate old)))
                  (findOverlapping db (engineerId old) (startDate old)
                     (endDate old)) = true).
  { apply existsb_exists. exists old. split; [exact Hfound |].
    now apply visitsDay_first. }
  rewrite Hex in Hlt. specialize (Hlt _ eq_refl). unfold CAPACITY in Hlt.
  pose proof (sumPct_filter_member
                (fun a => visitsDay a (dateKey (startDate old)))
                _ old (nonneg_found db _ _ _ Hp) Hfound
                (visitsDay_first old Hrange)) as Hge.
  unfold visitedTotal in Hlt. lia.
Qed.

Lemma full_assignment_is_frozen_witness :
  let db := dbOf [mkA 1 1 100 1 10] in
  let b := mkPatchBody (Some 40) None (Some (ofDay 4)) None false in
  snd (updateAssignment db 9 1 b) = db
  /\ status (fst (updateAssignment db 9 1 b)) <> 200.
Proof.
  intros db b.
  apply (full_assignment_is_frozen db 9 1 b (mkA 1 1 100 1 10)).
  - repeat constructor; vm_compute; discriminate.
  - vm_compute. reflexivity.
  - vm_compute. discriminate.
  - vm_compute. discriminate.
  - reflexivity.
  - vm_compute. reflexivity.
Defined.

(** ** Deleting an assignment *)

Lemma removeById_In l i a : In a (removeById l i) -> In a l.
Proof.
  induction l as [| x l IH]; simpl; [tauto |].
  destruct (_id x =? i); simpl; intuition.
Qed.

Lemma removeById_ids l i :
  NoDup (map _id l) ->
  NoDup (map _id (removeById l i)) /\ ~ In i (map _id (removeById l i)).
Proof.
  induction l as [| x l IH]; simpl; intros Hnd.
  - split; [constructor | tauto].
  - inversion Hnd as [| ? ? Hx Hl]; subst.
    destruct (Z.eqb_spec (_id x) i) as [E | N].
    + split; [exact Hl | now rewrite <- E].
    + destruct (IH Hl) as [H1 H2]. simpl. split.
      * constructor; [| exact H1]. intros Hin. apply Hx.
        apply in_map_iff in Hin. destruct Hin as (y & Hy & Hin).
        rewrite <- Hy. apply in_map. now apply removeById_In in Hin.
      * intros [E | Hin]; [contradiction | contradiction].
Qed.

Lemma find_removeById_other l i j :
  j <> i ->
  find (fun a => _id a =? j) (removeById l i) = find (fun a => _id a =? j) l.
Proof.
  intros Hne. induction l as [| x l IH]; simpl; [reflexivity |].
  destruct (Z.eqb_spec (_id x) i) as [E | N]; simpl.
  - destruct (Z.eqb_spec (_id x) j) as [E' | _]; [congruence | reflexivity].
  - now rewrite IH.
Qed.

Lemma find_absent l i :
  ~ In i (map _id l) -> find (fun a => _id a =? i) l = None.
Proof.
  intros H. destruct (find (fun a => _id a =? i) l) as [a |] eqn:F;
    [| reflexivity].
  apply find_some in F. destruct F as [Hin E]. apply Z.eqb_eq in E.
  exfalso. apply H. rewrite <- E. now apply in_map.
Qed.

(** X11: a delete answered 200 removes the document of that id and no other:
    [GET /:id] then answers 404 for it and as before for every other id.
    Any other answer leaves the database as it was, and the answer is 200
    only for the manager of the assignment's project. *)
Theorem delete_effect (db : Db) (reqUser id : Z) (resp : Response) (db' : Db) :
  NoDup (map _id (assignments db)) ->
  deleteAssignment db reqUser id = (resp, db') ->
  (status resp <> 200 /\ db' = db)
  \/ (status resp = 200
      /\ (exists old p, findById db id = Some old
                        /\ findProject db (projectId old) = Some p
                        /\ managerId p = reqUser)
      /\ getAssignment db' id = mkResponse 404 (Message "Assignment not found")
      /\ forall j, j <> id -> getAssignment db' j = getAssignment db j).
Proof.
  intros Hnd Hw. apply deleteAssignment_inv in Hw.
  destruct Hw as [(-> & Hs & _) | (old & p & F & P & Hm & -> & ->)];
    [left; now split | right].
  split; [reflexivity |]. split; [now exists old, p |].
  unfold getAssignment, findById. simpl. split.
  - rewrite find_absent; [reflexivity |]. now apply removeById_ids.
  - intros j Hj. now rewrite find_removeById_other.
Qed.

Lemma delete_effect_witness :
  let db := dbOf [mkA 1 1 60 1 10; mkA 2 1 30 5 15] in
  let out := deleteAssignment db 9 1 in
  (status (fst out) <> 200 /\ snd out = db)
  \/ (status (fst out) = 200
      /\ (exists old p, findById db 1 = Some old
                        /\ findProject db (projectId old) = Some p
                        /\ managerId p = 9)
      /\ getAssignment (snd out) 1
         = mkResponse 404 (Message "Assignment not found")
      /\ forall j, j <> 1 -> getAssignment (snd out) j = getAssignment db j).
Proof.
  intros db out. apply (delete_effect db 9 1 (fst out) (snd out)).
  - simpl. repeat constructor; simpl; intuition discriminate.
  - vm_compute. reflexivity.
Defined.

Lemma sumPct_filter_removeById f l i :
  Forall (fun a => 0 <= allocationPercentage a) l ->
  sumPct (filter f (removeById l i)) <= sumPct (filter f l).
Proof.
  induction 1 as [| x l Hx H IH]; simpl removeById; [lia |].
  destruct (_id x =? i).
  - rewrite sumPct_filter_cons. unfold share. destruct (f x); lia.
  - rewrite !sumPct_filter_cons. lia.
Qed.

(** X12: deleting releases capacity and nothing else: the store keeps its
    invariants, and no day of any engineer grows. *)
Theorem delete_keeps_capacity
    (db : Db) (reqUser id : Z) (resp : Response) (db' : Db) :
  storeOk db ->
  deleteAssignment db reqUser id = (resp, db') ->
  storeOk db' /\ forall eng k, dayTotal db' eng k <= dayTotal db eng k.
Proof.
  intros Hok Hw. apply deleteAssignment_inv in Hw.
  destruct Hw as [(-> & _) | (old & p & _ & _ & _ & _ & ->)].
  - split; [exact Hok | intros; lia].
  - destruct Hok as [Hd Hp Hi Hf Hc].
    assert (Hle : forall eng k,
              dayTotal {| users := users db; projects := projects db;
                          assignments := removeById (assignments db) id;
                          nextId := nextId db |} eng k
              <= dayTotal db eng k).
    { intros eng k. rewrite !dayTotal_filter. simpl.
      now apply sumPct_filter_removeById. }
    split; [| exact Hle]. constructor; simpl.
    + apply Forall_forall. intros a Ha. apply removeById_In in Ha.
      rewrite Forall_forall in Hd. now apply Hd.
    + apply Forall_forall. intros a Ha. apply removeById_In in Ha.
      rewrite Forall_forall in Hp. now apply Hp.
    + now apply removeById_ids.
    + apply Forall_forall. intros a Ha. apply removeById_In in Ha.
      rewrite Forall_forall in Hf. now apply Hf.
    + intros eng k. specialize (Hle eng k). specialize (Hc eng k). lia.
Qed.

Lemma delete_keeps_capacity_witness :
  let db := dbOf [mkA 1 1 60 1 10; mkA 2 1 40 5 30] in
  let out := deleteAssignment db 9 1 in
  storeOk (snd out) /\ forall eng k, dayTotal (snd out) eng k <= dayTotal db eng k.
Proof.
  intros db out. apply (delete_keeps_capacity db 9 1 (fst out) (snd out)).
  - exact example_store_ok.
  - vm_compute. reflexivity.
Defined.

(** ** Creating, then deleting *)

Lemma findProject_managed db pid user p :
  NoDup (map projectKey (projects db)) ->
  findManagedProject db pid user = Some p ->
  findProject db pid = Some p.
Proof.
  unfold findManagedProject, findProject.
  induction (projects db) as [| x l IH]; simpl; intros Hnd F; [discriminate |].
  inversion Hnd as [| ? ? Hx Hl]; subst.
  destruct (Z.eqb_spec (projectKey x) pid) as [E | N]; simpl in F.
  - destruct (managerId x =? user); [exact F |].
    apply find_some in F. destruct F as [Hin Hp].
    apply andb_true_iff in Hp. destruct Hp as [Hk _]. apply Z.eqb_eq in Hk.
    exfalso. apply Hx. rewrite E, <- Hk. now apply in_map.
  - now apply IH.
Qed.

Lemma removeById_app_last l a :
  ~ In (_id a) (map _id l) -> removeById (l ++ [a]) (_id a) = l.
Proof.
  induction l as [| x l IH]; simpl; intros H.
  - now rewrite Z.eqb_refl.
  - destruct (Z.eqb_spec (_id x) (_id a)) as [E | N]; [tauto |].
    rewrite IH; tauto.
Qed.

(** X13: what a create stored, a delete by the same manager takes away again:
    the delete is answered 200 and the assignments are those from before
    the create. *)
Theorem create_then_delete
    (db : Db) (reqUser : Z) (b : CreateBody) (a : Assignment) (db1 : Db) :
  NoDup (map projectKey (projects db)) ->
  ~ In (nextId db) (map _id (assignments db)) ->
  createAssignment db reqUser b = (mkResponse 201 (Document a), db1) ->
  exists db2,
    deleteAssignment db1 reqUser (_id a)
    = (mkResponse 200 (Message "Assignment deleted successfully"), db2)
    /\ assignments db2 = assignments db
    /\ users db2 = users db
    /\ projects db2 = projects db.
Proof.
  intros Hkeys Hfresh Hc. apply createAssignment_inv in Hc.
  destruct Hc as [(_ & Hs & _) | (E & _ & (p & P) & _ & _ & S)];
    [simpl in Hs; lia |].
  injection E as ->. apply save_inv in S. destruct S as [_ ->].
  unfold deleteAssignment, findById. cbn [assignments].
  rewrite find_app_last; [| | apply Z.eqb_refl].
  - unfold findProject. cbn [projects newAssignment projectId].
    fold (findProject db (cb_projectId b)).
    rewrite (findProject_managed db _ _ p Hkeys P).
    unfold findManagedProject in P. apply find_some in P. destruct P as [_ Hp].
    apply andb_true_iff in Hp. destruct Hp as [_ Hm]. rewrite Hm. simpl negb.
    cbv iota. eexists. split; [reflexivity |]. cbn [assignments users projects].
    split; [| split; reflexivity].
    apply (removeById_app_last (assignments db) (newAssignment db b)). exact Hfresh.
  - intros y Hy. now apply id_not_in with (l := assignments db).
Qed.

Lemma create_then_delete_witness :
  let db := dbOf [mkA 1 1 60 1 10] in
  let b := mkCreateBody 1 1 30 (ofDay 5) (ofDay 15) "dev" in
  exists db2,
    deleteAssignment (snd (createAssignment db 9 b)) 9 (_id (mkA 2 1 30 5 15))
    = (mkResponse 200 (Message "Assignment deleted successfully"), db2)
    /\ assignments db2 = assignments db
    /\ users db2 = users db
    /\ projects db2 = projects db.
Proof.
  intros db b.
  apply (create_then_delete db 9 b (mkA 2 1 30 5 15) (snd (createAssignment db 9 b))).
  - simpl. repeat constructor. simpl. tauto.
  - vm_compute. intros [H | []]. discriminate H.
  - vm_compute. reflexivity.
Defined.

(** ** Listing assignments *)

Lemma insertByStart_Permutation a l : Permutation (insertByStart a l) (a :: l).
Proof.
  induction l as [| b l IH]; simpl; [reflexivity |].
  destruct (startDate a <=? startDate b); [reflexivity |].
  rewrite IH. apply perm_swap.
Qed.

Lemma sortByStart_Permutation l : Permutation (sortByStart l) l.
Proof.
  induction l as [| a l IH]; simpl; [reflexivity |].
  rewrite insertByStart_Permutation. now constructor.
Qed.

Lemma insertByStart_sorted a l :
  sortedByStart l -> sortedByStart (insertByStart a l).
Proof.
  induction l as [| b l IH]; simpl; intros Hs.
  - split; constructor.
  - destruct Hs as [Hb Hl].
    destruct (Z.leb_spec (startDate a) (startDate b)) as [Hle | Hgt]; simpl.
    + split; [| split; assumption]. constructor; [exact Hle |].
      eapply Forall_impl; [| exact Hb]. simpl. intros x Hx. lia.
    + split; [| now apply IH].
      apply Forall_forall. intros x Hx.
      apply (Permutation_in _ (insertByStart_Permutation a l)) in Hx.
      destruct Hx as [<- | Hx]; [lia |].
      rewrite Forall_forall in Hb. now apply Hb.
Qed.

Lemma sortByStart_sorted l : sortedByStart (sortByStart l).
Proof.
  induction l as [| a l IH]; simpl; [exact I | now apply insertByStart_sorted].
Qed.

(** X14: [GET /] answers with exactly the stored assignments that pass every
    filter given, each once, by ascending start date.  A date range of
    which only one bound is given filters nothing, and the assignments of
    an engineer ([GET /engineers/:id/assignments]) are the list filtered by
    that engineer alone. *)
Theorem list_is_sorted_and_complete (db : Db) (q : ListQuery) :
  sortedByStart (listAssignments db q)
  /\ Permutation (listAssignments db q)
       (filter (matchesQuery q) (assignments db))
  /\ (forall a, In a (listAssignments db q)
                <-> In a (assignments db) /\ matchesQuery q a = true)
  /\ (q_startDate q = None \/ q_endDate q = None ->
      listAssignments db q
      = listAssignments db
          (mkListQuery (q_projectId q) (q_engineerId q) None None))
  /\ (forall id, engineerAssignments db id
                 = listAssignments db (mkListQuery None (Some id) None None)).
Proof.
  unfold listAssignments. split; [apply sortByStart_sorted |].
  split; [apply sortByStart_Permutation |]. split; [| split].
  - intros a. rewrite <- filter_In. split; intros H.
    + now apply (Permutation_in _ (sortByStart_Permutation _)).
    + now apply (Permutation_in _ (Permutation_sym (sortByStart_Permutation _))).
  - intros H. f_equal. apply filter_ext. intros a. unfold matchesQuery. simpl.
    destruct H as [-> | ->]; [reflexivity |].
    destruct (q_startDate q); reflexivity.
  - intros id. unfold engineerAssignments. f_equal. apply filter_ext.
    intros a. unfold matchesQuery. simpl. now rewrite andb_true_r.
Qed.

(** ** The capacity report of an engineer *)




(** ** The availability route *)

(** X16: [GET /engineers/:id/availability] never answers 404: for an id with no
    assignment on the window, be it an engineer or not, the answer is
    available, with no allocations. *)
Theorem availability_of_unassigned (db : Db) (id : Z) (s e : Date) :
  (forall a, In a (assignments db) -> overlapsWindow id s e a = false) ->
  engineerAvailability db id (Some s) (Some e)
  = AvailabilityOk {| isAvailable := true; allocations := [] |}.
Proof.
  intros H. unfold engineerAvailability. rewrite checkAvailability_run.
  unfold findOverlapping.
  assert (E : filter (overlapsWindow id s e) (assignments db) = []).
  { induction (assignments db) as [| a l IH]; simpl; [reflexivity |].
    rewrite (H a) by now left. apply IH. intros x Hx. apply H. now right. }
  rewrite E. reflexivity.
Qed.

Lemma availability_of_unassigned_witness :
  engineerAvailability (dbOf [mkA 1 1 100 1 10]) 77 (Some (ofDay 1)) (Some (ofDay 9))
  = AvailabilityOk {| isAvailable := true; allocations := [] |}.
Proof.
  apply (availability_of_unassigned (dbOf [mkA 1 1 100 1 10]) 77).
  intros a [<- | []]. vm_compute. reflexivity.
Defined.

(** ** Deleting a project *)

Lemma deleteProject_inv db reqUser id now resp db' :
  deleteProject db reqUser id now = (resp, db') ->
  (db' = db /\ status resp <> 200)
  \/ (exists p,
        findManagedProject db id reqUser = Some p
        /\ activeAssignments db p now = []
        /\ resp = mkResponse 200 (Message "Project deleted successfully")
        /\ db' = {| users := users db;
                    projects := removeProject (projects db) p;
                    assignments := assignments db;
                    nextId := nextId db |}).
Proof.
  unfold deleteProject.
  destruct (findManagedProject db id reqUser) as [p |] eqn:P.
  - destruct (activeAssignments db p now) eqn:A.
    + intros [= <- <-]. right. now exists p.
    + intros [= <- <-]. left. split; [reflexivity | simpl; lia].
  - intros [= <- <-]. left. split; [reflexivity | simpl; lia].
Qed.

Lemma managed_key db id user p :
  findManagedProject db id user = Some p ->
  In p (projects db) /\ projectKey p = id /\ managerId p = user.
Proof.
  unfold findManagedProject. intros F. apply find_some in F.
  destruct F as [Hin H]. apply andb_true_iff in H. destruct H as [H1 H2].
  apply Z.eqb_eq in H1, H2. tauto.
Qed.

(** X17: a project is deleted only by its manager and only when none of its
    assignments ends at the time of the request or later.  The delete
    never touches the assignments: those of the project, all ended, stay
    in the store. *)
Theorem deleteProject_effect
    (db : Db) (reqUser id : Z) (now : Date) (resp : Response) (db' : Db) :
  deleteProject db reqUser id now = (resp, db') ->
  assignments db' = assignments db
  /\ users db' = users db
  /\ (status resp <> 200 -> db' = db)
  /\ (status resp = 200 ->
      (exists p, In p (projects db) /\ projectKey p = id /\ managerId p = reqUser)
      /\ forall a, In a (assignments db') -> projectId a = id -> endDate a < now).
Proof.
  intros Hd. apply deleteProject_inv in Hd.
  destruct Hd as [(-> & Hs) | (p & P & A & -> & ->)].
  - split; [reflexivity |]. split; [reflexivity |].
    split; [reflexivity |]. intros H200. contradiction.
  - simpl. split; [reflexivity |]. split; [reflexivity |].
    split; [intros H200; now contradiction H200 |]. intros _. split.
    + exists p. now apply managed_key in P.
    + intros a Ha Hp. apply managed_key in P. destruct P as (_ & Hk & _).
      unfold activeAssignments in A.
      assert (Hnot : ~ In a (filter (fun a => (projectId a =? projectKey p)
                                              && (endDate a >=? now))
                               (assignments db))) by now rewrite A.
      rewrite filter_In in Hnot.
      destruct (Z.geb_spec (endDate a) now) as [Hge | Hlt]; [| lia].
      exfalso. apply Hnot. split; [exact Ha |].
      rewrite Hk, Hp, Z.eqb_refl. reflexivity.
Qed.

Lemma deleteProject_effect_witness :
  let db := dbOf [mkA 1 1 60 1 10] in
  let out := deleteProject db 9 1 (ofDay 11) in
  assignments (snd out) = assignments db
  /\ users (snd out) = users db
  /\ (status (fst out) <> 200 -> snd out = db)
  /\ (status (fst out) = 200 ->
      (exists p, In p (projects db) /\ projectKey p = 1 /\ managerId p = 9)
      /\ forall a, In a (assignments (snd out)) -> projectId a = 1 ->
                   endDate a < ofDay 11).
Proof.
  intros db out.
  apply (deleteProject_effect db 9 1 (ofDay 11) (fst out) (snd out)).
  vm_compute. reflexivity.
Defined.

Lemma removeProject_absent l p :
  NoDup (map projectKey l) ->
  find (fun x => projectKey x =? projectKey p) (removeProject l p) = None.
Proof.
  induction l as [| x l IH]; simpl; intros Hnd; [reflexivity |].
  inversion Hnd as [| ? ? Hx Hl]; subst.
  destruct (Z.eqb_spec (projectKey x) (projectKey p)) as [E | N].
  - destruct (find (fun y => projectKey y =? projectKey p) l) as [y |] eqn:F;
      [| reflexivity].
    apply find_some in F. destruct F as [Hin Hk]. apply Z.eqb_eq in Hk.
    exfalso. apply Hx. rewrite E, <- Hk. now apply in_map.
  - simpl. rewrite (proj2 (Z.eqb_neq _ _) N). now apply IH.
Qed.

(** X18: once its project is deleted, an assignment that stayed behind can be
    neither updated nor deleted, by anyone: the update is answered 400 and
    the delete 500, and the store stays as it is. *)
Theorem orphaned_assignment_is_stuck
    (db : Db) (reqUser pid : Z) (now : Date) (resp : Response) (db' : Db)
    (user i : Z) (a : Assignment) (b : PatchBody) :
  NoDup (map projectKey (projects db)) ->
  deleteProject db reqUser pid now = (resp, db') ->
  status resp = 200 ->
  findById db' i = Some a ->
  projectId a = pid ->
  pb_otherKeys b = false ->
  updateAssignment db' user i b
  = (mkResponse 400 (Message "Error updating assignment"), db')
  /\ deleteAssignment db' user i
     = (mkResponse 500 (Message "Error deleting assignment"), db').
Proof.
  intros Hnd Hd H200 F Hp Hb. apply deleteProject_inv in Hd.
  destruct Hd as [(_ & Hs) | (p & P & _ & _ & ->)]; [contradiction |].
  apply managed_key in P. destruct P as (_ & Hk & _).
  assert (Hgone : findProject
                    {| users := users db;
                       projects := removeProject (projects db) p;
                       assignments := assignments db; nextId := nextId db |}
                    (projectId a) = None).
  { unfold findProject. simpl. rewrite Hp, <- Hk.
    now apply removeProject_absent. }
  unfold updateAssignment, deleteAssignment. rewrite Hb, F, Hgone.
  split; reflexivity.
Qed.

Lemma orphaned_assignment_is_stuck_witness :
  let db := dbOf [mkA 1 1 60 1 10] in
  let db' := snd (deleteProject db 9 1 (ofDay 11)) in
  let b := mkPatchBody None None None (Some "lead"%string) false in
  updateAssignment db' 9 1 b
  = (mkResponse 400 (Message "Error updating assignment"), db')
  /\ deleteAssignment db' 9 1
     = (mkResponse 500 (Message "Error deleting assignment"), db').
Proof.
  intros db db' b.
  apply (orphaned_assignment_is_stuck db 9 1 (ofDay 11)
           (fst (deleteProject db 9 1 (ofDay 11))) db' 9 1 (mkA 1 1 60 1 10) b).
  - simpl. repeat constructor. simpl. tauto.
  - vm_compute. reflexivity.
  - vm_compute. reflexivity.
  - vm_compute. reflexivity.
  - reflexivity.
  - reflexivity.
Defined.

(** ** Repeating an update *)

Lemma dropSpaces_headOk l : headOk (dropSpaces l).
Proof.
  induction l as [| c l IH]; simpl; [exact I |].
  destruct (isSpace c) eqn:E; [exact IH | exact E].
Qed.

Lemma dropSpaces_fixed l : headOk l -> dropSpaces l = l.
Proof. destruct l as [| c l]; simpl; [reflexivity |]. now intros ->. Qed.

Lemma dropSpaces_suffix l : exists pre, l = pre ++ dropSpaces l.
Proof.
  induction l as [| c l [pre IH]]; simpl.
  - now exists [].
  - destruct (isSpace c).
    + exists (c :: pre). simpl. now rewrite <- IH.
    + now exists [].
Qed.

Lemma headOk_app l1 l2 : headOk (l1 ++ l2) -> headOk l1.
Proof. destruct l1; simpl; auto. Qed.

Lemma trimmed_twice l :
  let t := rev (dropSpaces (rev (dropSpaces l))) in
  rev (dropSpaces (rev (dropSpaces t))) = t.
Proof.
  intros t. subst t.
  set (l1 := dropSpaces l). set (l2 := dropSpaces (rev l1)).
  assert (H1 : headOk l1) by apply dropSpaces_headOk.
  assert (H2 : headOk l2) by apply dropSpaces_headOk.
  destruct (dropSpaces_suffix (rev l1)) as [pre Hpre]. fold l2 in Hpre.
  assert (Hl1 : l1 = rev l2 ++ rev pre).
  { rewrite <- (rev_involutive l1), Hpre, rev_app_distr. reflexivity. }
  assert (H3 : headOk (rev l2)).
  { apply (headOk_app _ (rev pre)). now rewrite <- Hl1. }
  rewrite (dropSpaces_fixed _ H3), rev_involutive, (dropSpaces_fixed _ H2).
  reflexivity.
Qed.

Lemma trim_idempotent s : trim (trim s) = trim s.
Proof.
  unfold trim. rewrite list_ascii_of_string_of_list_ascii.
  now rewrite trimmed_twice.
Qed.

Lemma applyUpdates_idempotent a b :
  applyUpdates (applyUpdates a b) b = applyUpdates a b.
Proof.
  unfold applyUpdates. simpl.
  destruct (pb_allocationPercentage b), (pb_startDate b), (pb_endDate b),
    (pb_role b); simpl; rewrite ?trim_idempotent; reflexivity.
Qed.

Lemma replaceById_twice l doc :
  replaceById (replaceById l doc) doc = replaceById l doc.
Proof.
  induction l as [| a l IH]; simpl; [reflexivity |].
  destruct (_id a =? _id doc) eqn:E; simpl.
  - now rewrite Z.eqb_refl.
  - now rewrite E, IH.
Qed.

(** X19: sending the same update a second time changes nothing more: whatever
    the two answers, the database after the second request is the
    database after the first. *)
Theorem update_twice
    (db : Db) (reqUser id : Z) (b : PatchBody)
    (resp1 resp2 : Response) (db1 db2 : Db) :
  updateAssignment db reqUser id b = (resp1, db1) ->
  updateAssignment db1 reqUser id b = (resp2, db2) ->
  db2 = db1.
Proof.
  intros H1 H2. pose proof H1 as H1'. apply updateAssignment_inv in H1'.
  destruct H1' as [(-> & _) | (old & p & _ & F & _ & _ & _ & S & _)].
  - rewrite H1 in H2. now injection H2.
  - apply save_inv in S. destruct S as [_ ->].
    apply updateAssignment_inv in H2.
    destruct H2 as [(-> & _) | (old2 & p2 & _ & F2 & _ & _ & _ & S2 & _)];
      [reflexivity |].
    apply save_inv in S2. destruct S2 as [_ ->]. cbn [users projects nextId assignments].
    pose proof (findById_In db id old F) as [_ Hid].
    assert (E : old2 = applyUpdates old b).
    { unfold findById in F2. cbn [assignments] in F2.
      assert (G : find (fun a => _id a =? _id (applyUpdates old b))
                    (replaceById (assignments db) (applyUpdates old b))
                  = Some (applyUpdates old b)).
      { apply (find_replaceById _ _ old). simpl. rewrite Hid. exact F. }
      simpl in G. rewrite Hid in G. rewrite G in F2. now injection F2. }
    subst old2. rewrite applyUpdates_idempotent, replaceById_twice. reflexivity.
Qed.

Lemma update_twice_witness :
  let db := dbOf [mkA 1 1 60 1 10; mkA 2 1 30 1 10] in
  let b := mkPatchBody (Some 70) None (Some (ofDay 12)) (Some " lead "%string) false in
  status (fst (updateAssignment db 9 1 b)) = 200
  /\ snd (updateAssignment (snd (updateAssignment db 9 1 b)) 9 1 b)
     = snd (updateAssignment db 9 1 b).
Proof.
  intros db b. split; [vm_compute; reflexivity |].
  apply (update_twice db 9 1 b (fst (updateAssignment db 9 1 b))
           (fst (updateAssignment (snd (updateAssignment db 9 1 b)) 9 1 b))).
  - vm_compute. reflexivity.
  - vm_compute. reflexivity.
Defined.

(** ** The order of the store *)




(** * The time zone of the server and the order of the query result *)

(** ** The evaluation on a server with days of 24 hours *)

Lemma dayLoopIn_utc (nextDay : Date -> Date) (pct : Z) (last : Date) :
  utcServer nextDay ->
  forall (fuel : nat) (current : Date) (m : Timeline),
    dayLoopIn nextDay fuel pct last current m = dayLoop fuel pct last current m.
Proof.
  intros U. induction fuel as [| fuel IH]; intros current m; simpl;
    [reflexivity |].
  destruct (current <=? last); [| reflexivity].
  rewrite U. unfold addDay. apply IH.
Qed.

Lemma dayLoop_enough a m (fuel : nat) :
  (loopBudget a <= fuel)%nat ->
  dayLoop fuel (allocationPercentage a) (endDate a) (startDate a) m
  = Some (fold_left (bump (allocationPercentage a)) (loopDays a) m).
Proof.
  intros H. unfold loopDays, dayCount. apply dayLoop_run.
  unfold loopBudget in H.
  destruct (Z.leb_spec (startDate a) (endDate a)); simpl Z.to_nat; lia.
Qed.

Lemma forEachAssignmentIn_utc (nextDay : Date -> Date) (fuel : nat) l :
  utcServer nextDay ->
  (budgetOf l <= fuel)%nat ->
  forall m, forEachAssignmentIn nextDay fuel l m = Some (timelineOf l m).
Proof.
  intros U. induction l as [| a l IH]; intros Hb m;
    cbn [forEachAssignmentIn]; [reflexivity |].
  change (budgetOf (a :: l)) with (Nat.max (loopBudget a) (budgetOf l)) in Hb.
  pose proof (Nat.le_max_l (loopBudget a) (budgetOf l)) as H1.
  pose proof (Nat.le_max_r (loopBudget a) (budgetOf l)) as H2.
  rewrite (dayLoopIn_utc nextDay _ _ U), dayLoop_enough
    by (eapply Nat.le_trans; eassumption).
  apply IH. eapply Nat.le_trans; eassumption.
Qed.

(** On such a server the evaluation ends, with the verdict of the
    timeline of the documents. *)
Lemma evaluatesTo_utc (nextDay : Date -> Date) found :
  utcServer nextDay ->
  evaluatesTo nextDay found (verdictOf (timelineOf found [])).
Proof.
  intros U. exists (budgetOf found). intros fuel Hf. unfold evaluateIn.
  now rewrite (forEachAssignmentIn_utc nextDay fuel found U Hf).
Qed.

Lemma evaluatesTo_unique (nextDay : Date -> Date) found v1 v2 :
  evaluatesTo nextDay found v1 -> evaluatesTo nextDay found v2 -> v1 = v2.
Proof.
  intros [f1 H1] [f2 H2].
  specialize (H1 (Nat.max f1 f2) (Nat.le_max_l _ _)).
  specialize (H2 (Nat.max f1 f2) (Nat.le_max_r _ _)). congruence.
Qed.

(** In every zone a larger budget changes no result. *)
Lemma dayLoopIn_more (nextDay : Date -> Date) (pct : Z) (last : Date) :
  forall (fuel fuel' : nat) (current : Date) (m m' : Timeline),
    (fuel <= fuel')%nat ->
    dayLoopIn nextDay fuel pct last current m = Some m' ->
    dayLoopIn nextDay fuel' pct last current m = Some m'.
Proof.
  induction fuel as [| fuel IH]; intros fuel' current m m' Hle H;
    [discriminate |].
  destruct fuel' as [| fuel']; [lia |]. simpl in *.
  destruct (current <=? last); [| exact H]. apply IH; [lia | exact H].
Qed.

Lemma evaluateIn_more (nextDay : Date -> Date) (fuel fuel' : nat) found v :
  (fuel <= fuel')%nat ->
  evaluateIn nextDay fuel found = Some v ->
  evaluateIn nextDay fuel' found = Some v.
Proof.
  intros Hle. unfold evaluateIn.
  assert (G : forall l m m',
            forEachAssignmentIn nextDay fuel l m = Some m' ->
            forEachAssignmentIn nextDay fuel' l m = Some m').
  { induction l as [| a l IH]; intros m m' H; cbn [forEachAssignmentIn] in *;
      [exact H |].
    destruct (dayLoopIn nextDay fuel (allocationPercentage a) (endDate a)
                (startDate a) m) as [m1 |] eqn:E; [| discriminate].
    rewrite (dayLoopIn_more nextDay _ _ fuel fuel' _ _ m1 Hle E). now apply IH. }
  destruct (forEachAssignmentIn nextDay fuel found []) as [m1 |] eqn:E;
    [| discriminate].
  intros H. now rewrite (G _ _ _ E).
Qed.

Lemma evaluatesTo_run (nextDay : Date -> Date) (fuel : nat) found v :
  evaluateIn nextDay fuel found = Some v -> evaluatesTo nextDay found v.
Proof.
  intros H. exists fuel. intros fuel' Hle.
  now apply (evaluateIn_more nextDay fuel fuel').
Qed.

(** Where the days are not all 24 hours long the loop can write a UTC day
    twice and skip another: in New York one assignment of 50 from
    2024-03-09 to 2024-03-12 is reported at 100 on 2024-03-10, not at all
    on 2024-03-12, and the engineer as unavailable. *)
Example daylight_saving_repeats_a_day :
  let a := mkA 1 1 50 19791 19794 in
  evaluatesTo newYorkNextDay [a]
    {| isAvailable := false;
       allocations := [(19791, 50); (19792, 100); (19793, 50)] |}
  /\ coversDay a 19794 = true
  /\ evaluatesTo addDay [a]
       {| isAvailable := true;
          allocations := [(19791, 50); (19792, 50); (19793, 50); (19794, 50)] |}.
Proof.
  intros a. split; [| split].
  - apply (evaluatesTo_run newYorkNextDay 10). vm_compute. reflexivity.
  - vm_compute. reflexivity.
  - apply (evaluatesTo_run addDay 10). vm_compute. reflexivity.
Qed.

(** ** Sums and the order of the documents *)

Lemma sumPct_filter_Permutation (f : Assignment -> bool) l1 l2 :
  Permutation l1 l2 -> sumPct (filter f l1) = sumPct (filter f l2).
Proof.
  induction 1 as [| a l1 l2 _ IH | a b l | l1 l2 l3 _ IH1 _ IH2].
  - reflexivity.
  - rewrite !sumPct_filter_cons. lia.
  - rewrite !sumPct_filter_cons. lia.
  - lia.
Qed.

Lemma Forall_Permutation (P : Assignment -> Prop) l1 l2 :
  Permutation l1 l2 -> Forall P l2 -> Forall P l1.
Proof.
  intros HP H. rewrite Forall_forall in *. intros a Ha. apply H.
  now apply (Permutation_in _ HP).
Qed.

Lemma queryResult_calendar db eng windowStart windowEnd found :
  queryResult db eng windowStart windowEnd found ->
  Forall calendarDates (assignments db) -> Forall calendarDates found.
Proof.
  intros Q H. apply (Forall_Permutation _ _ _ Q). now apply Forall_filter.
Qed.

Lemma queryResult_nonneg db eng windowStart windowEnd found :
  queryResult db eng windowStart windowEnd found ->
  Forall (fun a => 0 <= allocationPercentage a) (assignments db) ->
  Forall (fun a => 0 <= allocationPercentage a) found.
Proof.
  intros Q H. apply (Forall_Permutation _ _ _ Q). now apply Forall_filter.
Qed.


(** ** The entries *)



(** ** Assignments that do not overlap *)

Lemma apart_disjointDays a b :
  calendarDates a -> calendarDates b ->
  overlaps a b = false -> disjointDays a b = true.
Proof.
  intros [Has Hae] [Hbs Hbe]. unfold overlaps, disjointDays.
  rewrite andb_false_iff, orb_true_iff, Z.leb_gt, !Z.ltb_lt.
  pose proof (calendar_le _ _ Has Hbe) as H1.
  pose proof (calendar_le _ _ Hbs Hae) as H2.
  intros [H | H].
  - right. lia.
  - left. destruct (Z.geb_spec (endDate a) (startDate b)); [discriminate | lia].
Qed.

Lemma pairwiseApart_disjoint l :
  Forall calendarDates l -> pairwiseApart l = true -> pairwiseDisjoint l = true.
Proof.
  induction 1 as [| a l Ha Hl IH]; simpl; [reflexivity |].
  rewrite !andb_true_iff. intros [H1 H2]. split; [| now apply IH].
  rewrite forallb_forall in *. intros b Hb.
  rewrite Forall_forall in Hl. apply apart_disjointDays; [exact Ha | now apply Hl |].
  specialize (H1 b Hb). now apply negb_true_iff in H1.
Qed.

(** C6, as the code has it on a server whose local days are all 24 hours
    long and for calendar dates: when the assignments the query finds do
    not overlap one another, by the range test of the code, and each is
    below 100, the engineer is available. *)
Theorem disjoint_assignments_available
    (nextDay : Date -> Date) (db : Db) (eng : Z) (windowStart windowEnd : Date)
    (found : list Assignment) :
  utcServer nextDay ->
  queryResult db eng windowStart windowEnd found ->
  Forall calendarDates found ->
  pairwiseApart found = true ->
  forallb (fun a => allocationPercentage a <? 100) found = true ->
  exists v, evaluatesTo nextDay found v /\ isAvailable v = true.
Proof.
  intros U _ Hcal Hd Hp. exists (verdictOf (timelineOf found [])).
  split; [now apply evaluatesTo_utc |].
  apply isAvailable_verdictOf; [apply NoDup_keys_timelineOf |].
  intros k v. rewrite map_get_timelineOf.
  destruct (existsb _ _); [| discriminate]. intros [= <-].
  unfold CAPACITY. apply visitedTotal_disjoint; [| exact Hp].
  now apply pairwiseApart_disjoint.
Qed.

Lemma disjoint_assignments_available_witness :
  exists v,
    evaluatesTo addDay [mkA 1 1 99 1 3; mkA 2 1 0 4 6; mkA 3 1 50 8 9] v
    /\ isAvailable v = true.
Proof.
  apply (disjoint_assignments_available addDay
           (dbOf [mkA 1 1 99 1 3; mkA 2 1 0 4 6; mkA 3 1 50 8 9]) 1
           (ofDay 1) (ofDay 9)).
  - intros d. reflexivity.
  - vm_compute. reflexivity.
  - repeat constructor; vm_compute; reflexivity.
  - vm_compute. reflexivity.
  - vm_compute. reflexivity.
Defined.

(** With times of day two ranges can be apart and still share a day:
    60 until day 5 at 09:00 and 60 from day 5 at 15:00, both stored by an
    accepted create, make day 5 stand at 120. *)
Example apart_but_sharing_a_day :
  let first := {| _id := 1; engineerId := 1; projectId := 1;
                  allocationPercentage := 60; startDate := ofDay 1;
                  endDate := ofDay 5 + 9 * HOUR; role := "dev" |} in
  let second := mkCreateBody 1 1 60 (ofDay 5 + 15 * HOUR) (ofDay 9) "dev" in
  let out := createAssignment (dbOf [first]) 9 second in
  status (fst out) = 201
  /\ pairwiseApart (assignments (snd out)) = true
  /\ (exists v, checkAvailability (snd out) 1 (ofDay 1) (ofDay 9) = Some v
                /\ isAvailable v = false
                /\ map_get (allocations v) 5 = Some 120).
Proof.
  intros first second out. split; [vm_compute; reflexivity |].
  split; [vm_compute; reflexivity |].
  eexists. repeat split; vm_compute; reflexivity.
Qed.

(** ** The keys *)

(** C7, as the code has it on a server whose local days are all 24 hours
    long and for calendar dates: the keys are the days covered by at least
    one stored assignment of the engineer that overlaps the window, each
    once, in the order in which the loops first reach them (the assignments
    in the order the query returns them, which the code does not fix, the
    days of each in date order).  A day of the window that none covers is
    absent; a covered day outside the window is present. *)
Theorem allocations_keys
    (nextDay : Date -> Date) (db : Db) (eng : Z) (windowStart windowEnd : Date)
    (found : list Assignment) :
  utcServer nextDay ->
  queryResult db eng windowStart windowEnd found ->
  Forall calendarDates (assignments db) ->
  exists v,
    evaluatesTo nextDay found v
    /\ NoDup (map_keys (allocations v))
    /\ (forall k,
          In k (map_keys (allocations v))
          <-> exists a, In a (findOverlapping db eng windowStart windowEnd)
                        /\ coversDay a k = true)
    /\ map_keys (allocations v) = insertionOrder (flat_map loopDays found).
Proof.
  intros U Q Hcal. exists (verdictOf (timelineOf found [])).
  split; [now apply evaluatesTo_utc |].
  change (allocations (verdictOf (timelineOf found [])))
    with (timelineOf found []).
  split; [apply NoDup_keys_timelineOf |]. split.
  - intros k. rewrite In_keys_timelineOf, existsb_exists.
    pose proof (queryResult_calendar _ _ _ _ _ Q Hcal) as Hf.
    rewrite Forall_forall in Hf.
    split; intros (a & Ha & Hk); exists a.
    + split; [now apply (Permutation_in _ Q) | now apply visitsDay_covers].
    + assert (Ha' : In a found)
        by now apply (Permutation_in _ (Permutation_sym Q)).
      split; [exact Ha' |].
      rewrite visitsDay_calendar; [exact Hk | now apply Hf].
  - apply keys_timelineOf_empty.
Qed.

Lemma allocations_keys_witness :
  let db := dbOf [mkA 1 1 60 4 6; mkA 2 1 30 2 5] in
  let found := [mkA 2 1 30 2 5; mkA 1 1 60 4 6] in
  exists v,
    evaluatesTo addDay found v
    /\ NoDup (map_keys (allocations v))
    /\ (forall k,
          In k (map_keys (allocations v))
          <-> exists a, In a (findOverlapping db 1 (ofDay 5) (ofDay 9))
                        /\ coversDay a k = true)
    /\ map_keys (allocations v) = insertionOrder (flat_map loopDays found).
Proof.
  intros db found. apply (allocations_keys addDay db 1 (ofDay 5) (ofDay 9) found).
  - intros d. reflexivity.
  - vm_compute. apply perm_swap.
  - simpl. repeat constructor; vm_compute; reflexivity.
Defined.

(** With a time of day a covered day can be missing: 50 from day 1 at
    12:00 to day 3 covers day 3, and the loop stops before it. *)
Example time_of_day_skips_a_day :
  let a := {| _id := 1; engineerId := 1; projectId := 1;
              allocationPercentage := 50; startDate := ofDay 1 + 12 * HOUR;
              endDate := ofDay 3; role := "dev" |} in
  coversDay a 3 = true
  /\ checkAvailability (dbOf [a]) 1 (ofDay 1) (ofDay 3)
     = Some {| isAvailable := true; allocations := [(1, 50); (2, 50)] |}.
Proof. split; vm_compute; reflexivity. Qed.

(** ** The pre-check of a create and the validator *)

(** X6: on a server whose local days are all 24 hours long, the
    availability check of a create adds nothing to the save-time validator
    except at percentage 0: when the body passed the request validation
    and the check finds the engineer unavailable (the handler then answers
    with the capacity conflict), the percentage is 0 or the sum of the
    validator is above 100. *)
Theorem conflict_means_validator_rejects
    (nextDay : Date -> Date) (db : Db) (b : CreateBody)
    (found : list Assignment) (v : Verdict) :
  utcServer nextDay ->
  queryResult db (cb_engineerId b) (cb_startDate b) (cb_endDate b) found ->
  Forall (fun a => 0 <= allocationPercentage a) (assignments db) ->
  ~ In (nextId db) (map _id (assignments db)) ->
  validateAssignment b = true ->
  evaluatesTo nextDay found v ->
  isAvailable v = false ->
  cb_allocationPercentage b = 0
  \/ 100 < totalAllocation db (newAssignment db b) (cb_allocationPercentage b).
Proof.
  intros U Q Hp Hfresh V Hv A.
  rewrite (evaluatesTo_unique _ _ _ _ Hv (evaluatesTo_utc nextDay found U)) in A.
  apply isAvailable_false_verdictOf in A; [| apply NoDup_keys_timelineOf].
  destruct A as (k & t & Hg & Ht). rewrite map_get_timelineOf in Hg.
  destruct (existsb _ _); [| discriminate]. injection Hg as <-.
  pose proof (sumPct_filter_total (fun a => visitsDay a k) found
                (queryResult_nonneg _ _ _ _ _ Q Hp)) as [_ Hle].
  fold (visitedTotal found k) in Hle.
  rewrite totalAllocation_sum. fold (currentAssignments db (newAssignment db b)).
  rewrite (competes_fresh db b Hfresh).
  rewrite <- (filter_true (findOverlapping db _ _ _)).
  rewrite <- (sumPct_filter_Permutation _ _ _ Q), filter_true.
  unfold validateAssignment in V. rewrite !andb_true_iff, !Z.leb_le in V.
  unfold CAPACITY in Ht. lia.
Qed.

Lemma conflict_means_validator_rejects_witness :
  let db := dbOf [mkA 1 1 100 1 10] in
  let b := mkCreateBody 1 1 20 (ofDay 5) (ofDay 15) "dev" in
  cb_allocationPercentage b = 0
  \/ 100 < totalAllocation db (newAssignment db b) (cb_allocationPercentage b).
Proof.
  intros db b.
  apply (conflict_means_validator_rejects addDay db b [mkA 1 1 100 1 10]
           {| isAvailable := false;
              allocations := [(1, 100); (2, 100); (3, 100); (4, 100); (5, 100);
                              (6, 100); (7, 100); (8, 100); (9, 100); (10, 100)] |}).
  - intros d. reflexivity.
  - vm_compute. reflexivity.
  - repeat constructor; vm_compute; discriminate.
  - vm_compute. intros [H | []]. discriminate H.
  - vm_compute. reflexivity.
  - apply (evaluatesTo_run addDay 20). vm_compute. reflexivity.
  - reflexivity.
Defined.

(** ** A store within capacity *)



(** ** An update that keeps the percentage and moves the dates *)

(** The capacity check of an update hangs on the percentage: a body that
    repeats the stored percentage and moves [startDate] passes the check
    of the handler, which looks at the old range, and is saved without
    the sum of the validator.  Two assignments of 60 end up on the same
    days. *)
Example same_percentage_moves_dates :
  let db := dbOf [mkA 1 1 60 1 10; mkA 2 1 60 20 30] in
  let b := mkPatchBody (Some 60) (Some (ofDay 5)) None None false in
  guardedWrite db (Patch 2 b) = false
  /\ status (fst (updateAssignment db 9 2 b)) = 200
  /\ assignments (snd (updateAssignment db 9 2 b))
     = [mkA 1 1 60 1 10; mkA 2 1 60 5 30]
  /\ dayTotal (snd (updateAssignment db 9 2 b)) 1 5 = 120.
Proof. repeat split; vm_compute; reflexivity. Qed.
